(** * stj_search: incremental sync engine and query layer

    A shallow embedding of the Python package [stj_search] (modules
    [models], [db], [client], [sync] and [cli]) together with the
    properties of its sync engine and of its search layer.

    Conventions.
    - A Python [str] is a [string] of bytes (its UTF-8 encoding), which is
      also what SQLite compares and matches on.
    - A parsed JSON document is a [jval]; a JSON object used as a [dict] is
      a [gmap string jval].  JSON numbers are integers.
    - A call that may raise returns an [outcome]; code that also changes the
      database, the working directory or the console threads a [state]
      (monad [M]).  The catalog is a [World]: what it answers to each
      attempt of each request.
    - The SQLite tables are lists of rows in rowid order, as the connection
      sees them; commits are not modelled.  The statements issued by [db]
      are interpreted with SQLite's documented semantics (TEXT affinity,
      [INSERT OR REPLACE] on the primary key, [LIKE], [ORDER BY], [LIMIT]).
      The FTS5 index and the Python built-ins [str] and [json.dumps] are
      parameters.
    - The progress bar is left out. *)

From Stdlib Require Import ZArith String Ascii List QArith DecimalString.
From Stdlib Require Import Sorted Permutation Lia.
From stdpp Require Import gmap strings list.

Open Scope string_scope.
Open Scope list_scope.
Set Warnings "-register-all".

(** ** Python values and exceptions *)

Inductive jval : Type :=
| JNull
| JNum (n : Z)
| JStr (s : string)
| JList (items : list jval)
| JObj (members : list (string * jval)).

(** Python truthiness, as used by [x or ""] and [if x:]. *)
Definition truthy (v : jval) : bool :=
  match v with
  | JNull => false
  | JNum n => negb (n =? 0)%Z
  | JStr s => negb (String.eqb s "")
  | JList l => match l with [] => false | _ :: _ => true end
  | JObj l => match l with [] => false | _ :: _ => true end
  end.

(** Truthiness of an optional string argument ([str | None]). *)
Definition truthy_arg (a : option string) : bool :=
  match a with
  | None => false
  | Some s => negb (String.eqb s "")
  end.

Inductive exn : Type :=
| KeyError (key : string)
| HTTPError (url : string)          (* httpx.HTTPStatusError / TransportError *)
| JSONDecodeError (path : string)
| FileNotFoundError (path : string)
| ProgrammingError                  (* sqlite3: unsupported parameter type *)
| OverflowError                     (* sqlite3: integer does not fit 64 bits *)
| OperationalError (msg : string)   (* sqlite3: e.g. FTS5 syntax error *)
| AttributeError
| SystemExit (code : Z).

(** [except Exception] catches everything but [SystemExit]. *)
Definition is_Exception (e : exn) : bool :=
  match e with
  | SystemExit _ => false
  | _ => true
  end.

Inductive outcome (A : Type) : Type :=
| Ok (a : A)
| Raise (e : exn).
Arguments Ok {A} a.
Arguments Raise {A} e.

(** The two Python built-ins the normalizer calls. *)
Record PyRuntime : Type := {
  py_str : jval -> string;              (* str(x) *)
  json_dumps : list jval -> string      (* json.dumps(x, ensure_ascii=False) *)
}.

(** ** models.py *)

Module models.

Record Acordao : Type := mkAcordao {
  id : string;
  numero_documento : jval;
  numero_processo : jval;
  numero_registro : jval;
  sigla_classe : jval;
  descricao_classe : jval;
  classe_padronizada : jval;
  orgao_julgador : jval;
  ministro_relator : jval;
  data_publicacao : jval;
  ementa : jval;
  tipo_decisao : jval;
  data_decisao : jval;
  decisao : jval;
  jurisprudencia_citada : jval;
  notas : jval;
  informacoes_complementares : jval;
  termos_auxiliares : jval;
  tese_juridica : jval;
  tema : jval;
  referencias_legislativas : jval;
  acordaos_similares : jval
}.

(** [fields(Acordao)] names, in declaration order. *)
Definition field_names : list string :=
  [ "id"; "numero_documento"; "numero_processo"; "numero_registro";
    "sigla_classe"; "descricao_classe"; "classe_padronizada";
    "orgao_julgador"; "ministro_relator"; "data_publicacao"; "ementa";
    "tipo_decisao"; "data_decisao"; "decisao"; "jurisprudencia_citada";
    "notas"; "informacoes_complementares"; "termos_auxiliares";
    "tese_juridica"; "tema"; "referencias_legislativas";
    "acordaos_similares" ].

(** [dataclasses.astuple]. *)
Definition astuple (r : Acordao) : list jval :=
  [ JStr (id r); numero_documento r; numero_processo r; numero_registro r;
    sigla_classe r; descricao_classe r; classe_padronizada r;
    orgao_julgador r; ministro_relator r; data_publicacao r; ementa r;
    tipo_decisao r; data_decisao r; decisao r; jurisprudencia_citada r;
    notas r; informacoes_complementares r; termos_auxiliares r;
    tese_juridica r; tema r; referencias_legislativas r;
    acordaos_similares r ].

(** [data.get(key, default)]; [data.get(key)] has default [None]. *)
Definition get (data : gmap string jval) (key : string) (dflt : jval) : jval :=
  match data !! key with
  | Some v => v
  | None => dflt
  end.

Definition or_empty (v : jval) : jval := if truthy v then v else JStr "".

Section Normalizer.
Context (rt : PyRuntime).

(** [json.dumps(x, ensure_ascii=False) if x else ""] for a list [x];
    any other value is left as it is. *)
Definition serialize_list (v : jval) : jval :=
  match v with
  | JList l => JStr (if truthy v then json_dumps rt l else "")
  | _ => v
  end.

Definition from_json (data : gmap string jval) : outcome Acordao :=
  let refs := serialize_list (get data "referenciasLegislativas" JNull) in
  let similares := serialize_list (get data "acordaosSimilares" JNull) in
  match data !! "id" with
  | None => Raise (KeyError "id")
  | Some ident =>
      Ok {| id := py_str rt ident;
            numero_documento := get data "numeroDocumento" JNull;
            numero_processo := get data "numeroProcesso" (JStr "");
            numero_registro := get data "numeroRegistro" (JStr "");
            sigla_classe := get data "siglaClasse" (JStr "");
            descricao_classe := get data "descricaoClasse" (JStr "");
            classe_padronizada := get data "classePadronizada" JNull;
            orgao_julgador := get data "nomeOrgaoJulgador" (JStr "");
            ministro_relator := get data "ministroRelator" (JStr "");
            data_publicacao := get data "dataPublicacao" (JStr "");
            ementa := get data "ementa" (JStr "");
            tipo_decisao := get data "tipoDeDecisao" (JStr "");
            data_decisao := get data "dataDecisao" (JStr "");
            decisao := get data "decisao" (JStr "");
            jurisprudencia_citada := get data "jurisprudenciaCitada" JNull;
            notas := get data "notas" JNull;
            informacoes_complementares := get data "informacoesComplementares" JNull;
            termos_auxiliares := get data "termosAuxiliares" JNull;
            tese_juridica := get data "teseJuridica" JNull;
            tema := get data "tema" JNull;
            referencias_legislativas := or_empty refs;
            acordaos_similares := or_empty similares |}
  end.

(** The list comprehension [[Acordao.from_json(r) for r in raw]]: the first
    record that raises aborts the whole comprehension. *)
Fixpoint from_json_all (raw : list (gmap string jval)) : outcome (list Acordao) :=
  match raw with
  | [] => Ok []
  | r :: rest =>
      match from_json r with
      | Raise e => Raise e
      | Ok a =>
          match from_json_all rest with
          | Raise e => Raise e
          | Ok l => Ok (a :: l)
          end
      end
  end.

End Normalizer.

End models.

(** ** SQLite: the part of the engine the statements of [db] rely on *)

Module sqlite.

(** A stored value of a TEXT column: NULL or a text. *)
Inductive sqlval : Type :=
| SNull
| SText (s : string).

Definition row : Type := list sqlval.

Definition sqlval_eqb (a b : sqlval) : bool :=
  match a, b with
  | SNull, SNull => true
  | SText x, SText y => String.eqb x y
  | _, _ => false
  end.

(** Binding a Python value to a [?] placeholder and storing it in a column
    of TEXT affinity: [None] is NULL, a [str] is kept, an [int] that fits 64
    bits is converted to its decimal text; a [list] or [dict] cannot be
    bound. *)
Definition bind_param (v : jval) : outcome sqlval :=
  match v with
  | JNull => Ok SNull
  | JStr s => Ok (SText s)
  | JNum n =>
      if ((- 2 ^ 63 <=? n) && (n <? 2 ^ 63))%Z
      then Ok (SText (NilZero.string_of_int (Z.to_int n)))
      else Raise OverflowError
  | JList _ => Raise ProgrammingError
  | JObj _ => Raise ProgrammingError
  end.

Fixpoint bind_params (params : list jval) : outcome row :=
  match params with
  | [] => Ok []
  | v :: rest =>
      match bind_param v with
      | Raise e => Raise e
      | Ok x =>
          match bind_params rest with
          | Raise e => Raise e
          | Ok r => Ok (x :: r)
          end
      end
  end.

(** Primary key of table [acordaos]: its first column, [id]. *)
Definition row_id (r : row) : sqlval := hd SNull r.

Definition row_has_id (i : string) (r : row) : bool :=
  match row_id r with
  | SText j => String.eqb i j
  | SNull => false
  end.

(** Uniqueness conflict on the primary key (NULLs never conflict). *)
Definition pk_clash (new old : row) : bool :=
  match row_id new with
  | SText i => row_has_id i old
  | SNull => false
  end.

(** [INSERT OR REPLACE]: the conflicting rows are deleted, then the new row
    is inserted (it gets a fresh, larger rowid). *)
Definition insert_or_replace (new : row) (tbl : list row) : list row :=
  (List.filter (fun old => negb (pk_clash new old)) tbl ++ [new])%list.

(** [executemany] of an [INSERT OR REPLACE]: parameter tuples are bound and
    executed one after the other; a tuple that cannot be bound raises and
    leaves the rows written so far in place. *)
Fixpoint executemany_insert (tbl : list row) (rows : list (list jval))
  : outcome unit * list row :=
  match rows with
  | [] => (Ok tt, tbl)
  | params :: rest =>
      match bind_params params with
      | Raise e => (Raise e, tbl)
      | Ok r => executemany_insert (insert_or_replace r tbl) rest
      end
  end.

(** Comparison of stored values under the BINARY collation: NULL sorts
    before every text, texts compare byte by byte. *)
Definition sqlval_leb (a b : sqlval) : bool :=
  match a, b with
  | SNull, _ => true
  | SText _, SNull => false
  | SText x, SText y => String.leb x y
  end.

(** [col >= ?] with a text parameter; NULL makes the comparison NULL, and
    the row is then not selected. *)
Definition sql_ge (v : sqlval) (param : string) : bool :=
  match v with
  | SNull => false
  | SText s => String.leb param s
  end.

Definition ascii_lower (c : ascii) : ascii :=
  let n := nat_of_ascii c in
  if ((65 <=? n) && (n <=? 90))%nat then ascii_of_nat (n + 32) else c.

(** Equality of two characters under [LIKE]: upper and lower case match for
    the 26 ASCII letters only. *)
Definition like_char_eq (c d : ascii) : bool :=
  Ascii.eqb (ascii_lower c) (ascii_lower d).

Fixpoint skip_continuation (s : string) : string :=
  match s with
  | String c s' =>
      let n := nat_of_ascii c in
      if ((128 <=? n) && (n <? 192))%nat then skip_continuation s' else s
  | EmptyString => s
  end.

(** Drops the first UTF-8 character: a lead byte of 0xC0 or more together
    with the continuation bytes that follow it, any other byte alone. *)
Definition utf8_skip (s : string) : option string :=
  match s with
  | EmptyString => None
  | String c s' =>
      if (192 <=? nat_of_ascii c)%nat then Some (skip_continuation s')
      else Some s'
  end.

(** [s LIKE pat], without ESCAPE: [%] matches any sequence, [_] one
    character, any other character itself up to ASCII case. *)
Fixpoint like (pat s : string) {struct pat} : bool :=
  match pat with
  | EmptyString => match s with EmptyString => true | _ => false end
  | String p pat' =>
      if Ascii.eqb p "%"%char then
        (fix star (t : string) : bool :=
           like pat' t
           || match t with
              | EmptyString => false
              | String _ t' => star t'
              end) s
      else if Ascii.eqb p "_"%char then
        match utf8_skip s with
        | None => false
        | Some s' => like pat' s'
        end
      else
        match s with
        | EmptyString => false
        | String c s' => like_char_eq p c && like pat' s'
        end
  end.

(** [col LIKE ?]; NULL is never selected. *)
Definition sql_like (v : sqlval) (pat : string) : bool :=
  match v with
  | SNull => false
  | SText s => like pat s
  end.

(** [LIMIT n]: a negative [n] means no limit. *)
Definition sql_limit {A : Type} (n : Z) (l : list A) : list A :=
  if (n <? 0)%Z then l else firstn (Z.to_nat n) l.

(** [ORDER BY]: rows come out sorted; rows that compare equal keep the order
    of the scan. *)
Section OrderBy.
Context {A : Type} (leb : A -> A -> bool).

Fixpoint insert_sorted (x : A) (l : list A) : list A :=
  match l with
  | [] => [x]
  | y :: l' => if leb x y then x :: y :: l' else y :: insert_sorted x l'
  end.

Fixpoint order_by (l : list A) : list A :=
  match l with
  | [] => []
  | x :: l' => insert_sorted x (order_by l')
  end.

End OrderBy.

(** [SUBSTR(s, 1, n)]: the first [n] characters. *)
Fixpoint substr_prefix (n : nat) (s : string) : string :=
  match n, s with
  | O, _ => EmptyString
  | S n', String c s' =>
      if (192 <=? nat_of_ascii c)%nat then
        (fix lead (t : string) : string :=
           match t with
           | String d t' =>
               let k := nat_of_ascii d in
               if ((128 <=? k) && (k <? 192))%nat then String d (lead t')
               else substr_prefix n' t
           | EmptyString => EmptyString
           end) s'
      else String c (substr_prefix n' s')
  | S _, EmptyString => EmptyString
  end.

End sqlite.

(** ** db.py *)

Module db.
Export sqlite.

(** The FTS5 index [acordaos_fts] as the queries use it: [fts_match q] is
    the row predicate of [acordaos_fts MATCH q], or the error FTS5 reports
    for a query it cannot parse; [bm25 q tbl r] is the rank of row [r] of
    table [tbl] for that query. *)
Record Fts5 : Type := {
  fts_match : string -> outcome (row -> bool);
  bm25 : string -> list row -> row -> Q
}.

(** A connection: the tables [acordaos] and [sync_state] (columns
    [dataset], [resource_id], [resource_name]; [downloaded_at] is left
    out). *)
Record conn : Type := mkConn {
  acordaos : list row;
  sync_state : list (string * string * string)
}.

Definition set_acordaos (t : list row) (c : conn) : conn :=
  {| acordaos := t; sync_state := sync_state c |}.

Definition set_sync_state (m : list (string * string * string)) (c : conn) : conn :=
  {| acordaos := acordaos c; sync_state := m |}.

Fixpoint index_of (name : string) (names : list string) : option nat :=
  match names with
  | [] => None
  | n :: rest =>
      if String.eqb name n then Some O
      else match index_of name rest with
           | Some i => Some (S i)
           | None => None
           end
  end.

(** Column [a.name] of a row of [acordaos]. *)
Definition column (name : string) (r : row) : sqlval :=
  match index_of name models.field_names with
  | Some i => nth i r SNull
  | None => SNull
  end.

Definition upsert_acordaos (c : conn) (records : list models.Acordao)
  : outcome nat * conn :=
  match records with
  | [] => (Ok O, c)
  | _ :: _ =>
      let rows := map models.astuple records in
      match executemany_insert (acordaos c) rows with
      | (Raise e, t) => (Raise e, set_acordaos t c)
      | (Ok _, t) => (Ok (length rows), set_acordaos t c)
      end
  end.

Definition same_marker (dataset resource_id : string)
  (m : string * string * string) : bool :=
  String.eqb (fst (fst m)) dataset && String.eqb (snd (fst m)) resource_id.

Definition mark_synced (c : conn) (dataset resource_id resource_name : string)
  : conn :=
  set_sync_state
    (List.filter (fun m => negb (same_marker dataset resource_id m)) (sync_state c)
       ++ [(dataset, resource_id, resource_name)])%list c.

Definition is_synced (c : conn) (dataset resource_id : string) : bool :=
  existsb (same_marker dataset resource_id) (sync_state c).

Definition clear_sync_state (c : conn) (dataset : option string) : conn :=
  if truthy_arg dataset then
    set_sync_state
      (List.filter
         (fun m => negb (String.eqb (fst (fst m)) (default "" dataset)))
         (sync_state c)) c
  else set_sync_state [] c.

(** One clause of the WHERE condition built by [_build_filters]. *)
Inductive clause : Type :=
| Like (col : string)     (* a.col LIKE ? *)
| Ge (col : string).      (* a.col >= ? *)

Definition _build_filters (ministro classe desde : option string)
  : list clause * list string :=
  let clauses : list clause := [] in
  let params : list string := [] in
  let '(clauses, params) :=
    if truthy_arg ministro
    then ((clauses ++ [Like "ministro_relator"])%list,
          (params ++ [("%" ++ default "" ministro ++ "%")%string])%list)
    else (clauses, params) in
  let '(clauses, params) :=
    if truthy_arg classe
    then ((clauses ++ [Like "sigla_classe"])%list,
          (params ++ [("%" ++ default "" classe ++ "%")%string])%list)
    else (clauses, params) in
  let '(clauses, params) :=
    if truthy_arg desde
    then ((clauses ++ [Ge "data_decisao"])%list,
          (params ++ [default "" desde])%list)
    else (clauses, params) in
  (clauses, params).

(** The conjunction [AND c1 AND c2 ...] on a row, each [?] taking the next
    parameter. *)
Fixpoint eval_filters (clauses : list clause) (params : list string) (r : row)
  : bool :=
  match clauses, params with
  | [], _ => true
  | Like col :: cs, p :: ps => sql_like (column col r) p && eval_filters cs ps r
  | Ge col :: cs, p :: ps => sql_ge (column col r) p && eval_filters cs ps r
  | _ :: _, [] => false
  end.

Inductive order_clause : Type :=
| DataDecisaoDesc     (* a.data_decisao DESC *)
| Rank.               (* rank *)

Section Query.
Context (fts : Fts5).

(** [FROM acordaos_fts f JOIN acordaos a ON a.rowid = f.rowid
     WHERE acordaos_fts MATCH ? filter_sql], in rowid order. *)
Definition matching (c : conn) (query : string)
  (filters : list clause * list string) : outcome (list row) :=
  match fts_match fts query with
  | Raise e => Raise e
  | Ok m =>
      Ok (List.filter
            (fun r => m r && eval_filters (fst filters) (snd filters) r)
            (acordaos c))
  end.

Definition order_leb (o : order_clause) (x y : row * Q) : bool :=
  match o with
  | DataDecisaoDesc =>
      sqlval_leb (column "data_decisao" (fst y)) (column "data_decisao" (fst x))
  | Rank => Qle_bool (snd x) (snd y)
  end.

(** The defaults of the keyword parameters [limit] and [order]. *)
Definition default_limit : Z := 20.
Definition default_order : string := "data".

(** Each result is the row [a.*] paired with its [rank]. *)
Definition search (c : conn) (query : string)
  (ministro classe desde : option string) (limit : Z) (order : string)
  : outcome (list (row * Q)) :=
  let filters := _build_filters ministro classe desde in
  let order_clause := if String.eqb order "data" then DataDecisaoDesc else Rank in
  match matching c query filters with
  | Raise e => Raise e
  | Ok hits =>
      let ranked := map (fun r => (r, bm25 fts query (acordaos c) r)) hits in
      Ok (sql_limit limit (order_by (order_leb order_clause) ranked))
  end.

(** One more row in the group of key [k]; NULL keys form one group. *)
Fixpoint bump (k : sqlval) (groups : list (sqlval * nat)) : list (sqlval * nat) :=
  match groups with
  | [] => [(k, 1%nat)]
  | (k', n) :: rest =>
      if sqlval_eqb k k' then (k', S n) :: rest else (k', n) :: bump k rest
  end.

(** Groups of [GROUP BY key] with their [COUNT( * )], in ascending key
    order (the order in which the engine's sorter emits them). *)
Definition group_count (key : row -> sqlval) (rows : list row)
  : list (sqlval * nat) :=
  order_by (fun x y => sqlval_leb (fst x) (fst y))
    (fold_left (fun groups r => bump (key r) groups) rows []).

(** [ORDER BY cnt DESC]. *)
Definition by_count_desc (groups : list (sqlval * nat)) : list (sqlval * nat) :=
  order_by (fun x y => (snd y <=? snd x)%nat) groups.

(** [SUBSTR(a.data_decisao, 1, 4) AS ano ... AND a.data_decisao != ''
     GROUP BY ano ORDER BY ano DESC]. *)
Definition has_date (r : row) : bool :=
  match column "data_decisao" r with
  | SNull => false
  | SText s => negb (String.eqb s "")
  end.

Definition ano (r : row) : sqlval :=
  match column "data_decisao" r with
  | SNull => SNull
  | SText s => SText (substr_prefix 4 s)
  end.

Record stats : Type := mkStats {
  total : nat;
  by_orgao : list (sqlval * nat);
  by_classe : list (sqlval * nat);
  by_relator : list (sqlval * nat);
  by_year : list (sqlval * nat)
}.

Definition search_stats (c : conn) (query : string)
  (ministro classe desde : option string) : outcome stats :=
  let filters := _build_filters ministro classe desde in
  match matching c query filters with
  | Raise e => Raise e
  | Ok base =>
      Ok {| total := length base;
            by_orgao := by_count_desc (group_count (column "orgao_julgador") base);
            by_classe :=
              sql_limit 10 (by_count_desc (group_count (column "sigla_classe") base));
            by_relator :=
              sql_limit 10
                (by_count_desc (group_count (column "ministro_relator") base));
            by_year :=
              sql_limit 15
                (order_by (fun x y => sqlval_leb (fst y) (fst x))
                   (group_count ano (List.filter has_date base))) |}
  end.

End Query.

(** [SELECT * FROM acordaos WHERE id = ?], [fetchone]. *)
Definition get_by_id (c : conn) (record_id : string) : option row :=
  List.find (row_has_id record_id) (acordaos c).

End db.

(** ** config.py *)

Module config.

Definition CKAN_BASE_URL : string :=
  "https://dadosabertos.web.stj.jus.br/api/3/action".

Definition DATASETS : list string :=
  [ "espelhos-de-acordaos-corte-especial";
    "espelhos-de-acordaos-primeira-secao";
    "espelhos-de-acordaos-primeira-turma";
    "espelhos-de-acordaos-quarta-turma";
    "espelhos-de-acordaos-quinta-turma";
    "espelhos-de-acordaos-segunda-secao";
    "espelhos-de-acordaos-segunda-turma";
    "espelhos-de-acordaos-sexta-turma";
    "espelhos-de-acordaos-terceira-secao";
    "espelhos-de-acordaos-terceira-turma" ].

Definition DATA_DIR : string := "data".

End config.

(** ** The process state and its monad *)

(** A file of the working directory. *)
Inductive content : Type :=
| FJson (records : list (gmap string jval))   (* a JSON array of objects *)
| FGarbage                                    (* not JSON *)
| FZip (members : list (string * content)).   (* an archive *)

(** A resource descriptor of the catalog; an absent [name] or [format] is
    the empty string, as [res.get(key, "")] reads it. *)
Record resource : Type := mkResource {
  res_id : string;
  res_name : string;
  res_format : string;
  res_url : string
}.

(** The catalog as the client sees it: the answer to the [attempt]-th try of
    a request, [None] when the try ends in an HTTP error status or a
    transport error. *)
Record World : Type := {
  package_show : string -> nat -> option (list resource);
  get_json : string -> nat -> option (list (gmap string jval));
  get_zip : string -> nat -> option (list (string * content))
}.

Inductive event : Type :=
| PrintDataset (dataset : string)
| PrintNoResources
| PrintDownloading (res_name : string)
| PrintError (res_name : string) (e : exn)
| PrintUpserted (n : nat)
| PrintComplete (n : nat)
| PrintUnknownDataset (dataset : string).

Record state : Type := mkState {
  conn : db.conn;                   (* the database *)
  files : gmap string content;      (* the working directory *)
  requests : list string;           (* URLs requested so far, oldest first *)
  slept : nat;                      (* seconds spent in time.sleep *)
  console : list event;             (* lines printed, oldest first *)
  total_upserted : nat              (* the local of sync_dataset *)
}.

Definition M (A : Type) : Type := state -> outcome A * state.

Definition ret {A : Type} (a : A) : M A := fun s => (Ok a, s).

Definition bind {A B : Type} (m : M A) (k : A -> M B) : M B :=
  fun s =>
    match m s with
    | (Ok a, s') => k a s'
    | (Raise e, s') => (Raise e, s')
    end.

Definition raise {A : Type} (e : exn) : M A := fun s => (Raise e, s).

(** [try: body  except Exception as e: handler(e)]. *)
Definition try_except (body : M unit) (handler : exn -> M unit) : M unit :=
  fun s =>
    match body s with
    | (Ok tt, s') => (Ok tt, s')
    | (Raise e, s') => if is_Exception e then handler e s' else (Raise e, s')
    end.

(** [try: body  finally: cleanup]. *)
Definition try_finally {A : Type} (body : M A) (cleanup : M unit) : M A :=
  fun s =>
    match body s with
    | (r, s') =>
        match cleanup s' with
        | (Ok _, s'') => (r, s'')
        | (Raise e, s'') => (Raise e, s'')
        end
    end.

Definition lift {A : Type} (r : outcome A) : M A := fun s => (r, s).

Notation "x <- m ;; k" := (bind m (fun x => k))
  (at level 100, m at next level, right associativity).
Notation "m ;; k" := (bind m (fun _ => k))
  (at level 100, right associativity).

(** [for x in l: body(x)]. *)
Fixpoint for_each {A : Type} (l : list A) (body : A -> M unit) : M unit :=
  match l with
  | [] => ret tt
  | x :: rest => body x ;; for_each rest body
  end.

Definition print (e : event) : M unit :=
  fun s =>
    (Ok tt, {| conn := conn s; files := files s; requests := requests s;
               slept := slept s; console := console s ++ [e];
               total_upserted := total_upserted s |}).

Definition sleep (seconds : nat) : M unit :=
  fun s =>
    (Ok tt, {| conn := conn s; files := files s; requests := requests s;
               slept := slept s + seconds; console := console s;
               total_upserted := total_upserted s |}).

Definition request (url : string) : M unit :=
  fun s =>
    (Ok tt, {| conn := conn s; files := files s; requests := requests s ++ [url];
               slept := slept s; console := console s;
               total_upserted := total_upserted s |}).

Definition set_conn (c : db.conn) (s : state) : state :=
  {| conn := c; files := files s; requests := requests s; slept := slept s;
     console := console s; total_upserted := total_upserted s |}.

Definition set_files (f : gmap string content) (s : state) : state :=
  {| conn := conn s; files := f; requests := requests s; slept := slept s;
     console := console s; total_upserted := total_upserted s |}.

Definition set_total_upserted (n : nat) : M unit :=
  fun s =>
    (Ok tt, {| conn := conn s; files := files s; requests := requests s;
               slept := slept s; console := console s; total_upserted := n |}).

Definition write_file (path : string) (c : content) : M unit :=
  fun s => (Ok tt, set_files (<[path := c]> (files s)) s).

(** [path.unlink(missing_ok=True)]. *)
Definition unlink (path : string) : M unit :=
  fun s => (Ok tt, set_files (delete path (files s)) s).

(** ** client.py *)

Module client.

Definition MAX_RETRIES : nat := 3.
Definition RETRY_DELAY : nat := 5.

Section Client.
Context (w : World).

(** The retry loop [for attempt in range(MAX_RETRIES)] shared by
    [_request_with_retry] and [download_and_extract_zip].  A loop that runs
    out of attempts without returning or raising cannot happen with
    [MAX_RETRIES = 3]; the caller would then fail on the missing
    response. *)
Fixpoint retry_loop {A : Type} (url : string) (send : nat -> option A)
    (attempts : list nat) : M A :=
  match attempts with
  | [] => raise AttributeError
  | attempt :: rest =>
      request url ;;
      match send attempt with
      | Some resp => ret resp
      | None =>
          if (attempt <? MAX_RETRIES - 1)%nat
          then sleep (RETRY_DELAY * (attempt + 1)) ;; retry_loop url send rest
          else raise (HTTPError url)
      end
  end.

Definition _request_with_retry {A : Type} (url : string) (send : nat -> option A)
  : M A :=
  retry_loop url send (seq 0 MAX_RETRIES).

Definition get_dataset_resources (dataset : string) : M (list resource) :=
  let url := (config.CKAN_BASE_URL ++ "/package_show?id=" ++ dataset)%string in
  _request_with_retry url (package_show w dataset).

Definition ascii_upper (c : ascii) : ascii :=
  let n := nat_of_ascii c in
  if ((97 <=? n) && (n <=? 122))%nat then ascii_of_nat (n - 32) else c.

(** [str.upper], on ASCII letters. *)
Fixpoint upper (s : string) : string :=
  match s with
  | EmptyString => EmptyString
  | String c s' => String (ascii_upper c) (upper s')
  end.

Definition filter_data_resources (resources : list resource) : list resource :=
  List.filter
    (fun r =>
       (String.eqb (upper (res_format r)) "JSON"
        || String.eqb (upper (res_format r)) "ZIP")
       && negb (String.prefix "dicionario" (res_name r)))
    resources.

Definition download_json (url : string) : M (list (gmap string jval)) :=
  _request_with_retry url (get_json w url).

(** [name.endswith(suffix)]. *)
Definition endswith (name suffix : string) : bool :=
  (String.length suffix <=? String.length name)%nat
  && String.eqb
       (String.substring (String.length name - String.length suffix)
          (String.length suffix) name)
       suffix.

Definition download_and_extract_zip (url dataset : string) : M (list string) :=
  let dest_dir := (config.DATA_DIR ++ "/" ++ dataset)%string in
  let zip_path := (dest_dir ++ "/archive.zip")%string in
  members <- retry_loop url (get_zip w url) (seq 0 MAX_RETRIES) ;;
  write_file zip_path (FZip members) ;;
  let json_members :=
    List.filter (fun m => endswith (fst m) ".json") members in
  for_each json_members
    (fun m => write_file (dest_dir ++ "/" ++ fst m)%string (snd m)) ;;
  unlink zip_path ;;
  ret (map (fun m => (dest_dir ++ "/" ++ fst m)%string) json_members).

End Client.

Definition parse_json_file (path : string) : M (list (gmap string jval)) :=
  fun s =>
    match files s !! path with
    | Some (FJson records) => (Ok records, s)
    | Some _ => (Raise (JSONDecodeError path), s)
    | None => (Raise (FileNotFoundError path), s)
    end.

End client.

(** ** sync.py *)

Module sync.

Section Sync.
Context (rt : PyRuntime) (w : World).

Definition conn_upsert_acordaos (records : list models.Acordao) : M nat :=
  fun s =>
    match db.upsert_acordaos (conn s) records with
    | (r, c) => (r, set_conn c s)
    end.

Definition conn_mark_synced (dataset res_id res_name : string) : M unit :=
  fun s => (Ok tt, set_conn (db.mark_synced (conn s) dataset res_id res_name) s).

Definition conn_is_synced (dataset res_id : string) : M bool :=
  fun s => (Ok (db.is_synced (conn s) dataset res_id), s).

Definition get_total_upserted : M nat :=
  fun s => (Ok (total_upserted s), s).

(** [total_upserted += count]. *)
Definition add_total_upserted (count : nat) : M unit :=
  fun s => set_total_upserted (total_upserted s + count) s.

(** Normalize and upsert one parsed payload (lines 56-58 and 62-64). *)
Definition ingest (raw : list (gmap string jval)) : M unit :=
  records <- lift (models.from_json_all rt raw) ;;
  count <- conn_upsert_acordaos records ;;
  add_total_upserted count.

(** The body of the [try] statement (lines 52-66). *)
Definition process_resource (dataset : string) (res : resource) : M unit :=
  (if String.eqb (client.upper (res_format res)) "ZIP" then
     json_files <- client.download_and_extract_zip w (res_url res) dataset ;;
     for_each json_files
       (fun json_file =>
          raw <- client.parse_json_file json_file ;;
          ingest raw ;;
          unlink json_file)
   else
     raw <- client.download_json w (res_url res) ;;
     ingest raw) ;;
  conn_mark_synced dataset (res_id res) (res_name res).

(** The body of the loop [for res in data_resources] (lines 39-71); the
    progress bar is not modelled. *)
Definition sync_resource (dataset : string) (force : bool) (res : resource)
  : M unit :=
  skip <- (if negb force then conn_is_synced dataset (res_id res) else ret false) ;;
  if (skip : bool) then ret tt
  else
    print (PrintDownloading (res_name res)) ;;
    try_except (process_resource dataset res)
      (fun e => print (PrintError (res_name res) e)).

Definition sync_dataset (dataset : string) (force : bool) : M nat :=
  print (PrintDataset dataset) ;;
  resources <- client.get_dataset_resources w dataset ;;
  let data_resources := client.filter_data_resources resources in
  match data_resources with
  | [] => print PrintNoResources ;; ret O
  | _ :: _ =>
      set_total_upserted O ;;
      for_each data_resources (sync_resource dataset force) ;;
      total <- get_total_upserted ;;
      print (PrintUpserted total) ;;
      ret total
  end.

(** The loop [for ds in datasets] of [sync_all], with its accumulator. *)
Fixpoint sync_datasets (datasets : list string) (force : bool) (total : nat)
  : M nat :=
  match datasets with
  | [] => ret total
  | ds :: rest =>
      count <- sync_dataset ds force ;;
      sync_datasets rest force (total + count)
  end.

(** [db.init_db] creates the tables when they do not exist and leaves
    existing rows alone; the tables of a [db.conn] always exist. *)
Definition sync_all (dataset_filter : option string) (force : bool) : M nat :=
  let datasets :=
    if truthy_arg dataset_filter then [default "" dataset_filter]
    else config.DATASETS in
  total <- sync_datasets datasets force O ;;
  print (PrintComplete total) ;;
  ret total.

End Sync.

End sync.

(** ** cli.py *)

Module cli.

Section Cli.
Context (rt : PyRuntime) (w : World).

Definition conn_clear_sync_state (dataset : option string) : M unit :=
  fun s => (Ok tt, set_conn (db.clear_sync_state (conn s) dataset) s).

(** The command [sync [--dataset NAME] [--force]]; opening and closing the
    connection leave the database as it is. *)
Definition sync (dataset : option string) (force : bool) : M unit :=
  if truthy_arg dataset
     && negb (existsb (String.eqb (default "" dataset)) config.DATASETS)
  then
    print (PrintUnknownDataset (default "" dataset)) ;;
    raise (SystemExit 1)
  else
    try_finally
      ((if force then conn_clear_sync_state dataset else ret tt) ;;
       sync.sync_all rt w dataset force ;;
       ret tt)
      (ret tt).

End Cli.



Section Busca.
Context (fts : db.Fts5).






End Busca.

End cli.

(** ** A reference FTS5 engine and a small catalog

    The properties below hold for every engine, runtime and catalog.  The
    closed examples run the code on the following ones. *)

Module fts5_barewords.
Import sqlite.

(** FTS5 restricted to queries made of barewords (ASCII letters and digits)
    separated by spaces, which it reads as the conjunction of its terms; the
    tokenizer is [unicode61] restricted to ASCII text.  An empty expression
    is a syntax error, as in FTS5.  Everything else (operators, phrases,
    prefixes, column filters) is outside this fragment. *)

Definition is_alnum (c : ascii) : bool :=
  let n := nat_of_ascii c in
  ((48 <=? n) && (n <=? 57) || (65 <=? n) && (n <=? 90)
   || (97 <=? n) && (n <=? 122))%nat.

Fixpoint words (s cur : string) : list string :=
  match s with
  | EmptyString => if String.eqb cur "" then [] else [cur]
  | String c s' =>
      if is_alnum c then words s' (cur ++ String c EmptyString)%string
      else if String.eqb cur "" then words s' ""
      else cur :: words s' ""
  end.

Fixpoint lower (s : string) : string :=
  match s with
  | EmptyString => EmptyString
  | String c s' => String (ascii_lower c) (lower s')
  end.

Definition tokenize (s : string) : list string := map lower (words s "").

Fixpoint only_barewords (s : string) : bool :=
  match s with
  | EmptyString => true
  | String c s' => (is_alnum c || Ascii.eqb c " "%char) && only_barewords s'
  end.

Definition keyword (t : string) : bool :=
  String.eqb t "AND" || String.eqb t "OR" || String.eqb t "NOT"
  || String.eqb t "NEAR".

Definition indexed_columns : list string :=
  [ "ementa"; "decisao"; "informacoes_complementares"; "termos_auxiliares";
    "notas"; "tese_juridica" ].

Definition row_tokens (r : row) : list string :=
  flat_map
    (fun col =>
       match db.column col r with
       | SNull => []
       | SText s => tokenize s
       end)
    indexed_columns.

Definition occurrences (t : string) (r : row) : nat :=
  length (List.filter (String.eqb t) (row_tokens r)).

Definition double_quote : string := String (ascii_of_nat 34) EmptyString.

Definition syntax_error_near_nothing : string :=
  ("fts5: syntax error near " ++ double_quote ++ double_quote)%string.

Definition engine : db.Fts5 :=
  {| db.fts_match := fun query =>
       if only_barewords query && negb (existsb keyword (words query "")) then
         match tokenize query with
         | [] => Raise (OperationalError syntax_error_near_nothing)
         | terms =>
             Ok (fun r => forallb (fun t => (0 <? occurrences t r)%nat) terms)
         end
       else Raise (OperationalError "outside the bareword fragment");
     (* a stand-in for the BM25 score: more occurrences, more negative *)
     db.bm25 := fun query _ r =>
       (- Z.of_nat (list_sum (map (fun t => occurrences t r) (tokenize query)))
        # 1)%Q |}.

End fts5_barewords.

Module scenario.

(** [str] on JSON scalars and [json.dumps] on lists of scalars; the
    examples use no other values. *)
Definition scalar_text (v : jval) : string :=
  match v with
  | JNull => "None"
  | JNum n => NilZero.string_of_int (Z.to_int n)
  | JStr s => s
  | JList _ => "[]"
  | JObj _ => "{}"
  end.

Definition quoted (v : jval) : string :=
  match v with
  | JStr s =>
      (fts5_barewords.double_quote ++ s ++ fts5_barewords.double_quote)%string
  | JNull => "null"
  | _ => scalar_text v
  end.

Definition rt : PyRuntime :=
  {| py_str := scalar_text;
     json_dumps := fun l =>
       ("[" ++ String.concat ", " (map quoted l) ++ "]")%string |}.

Definition raw_record (ident relator classe data_dec texto : string)
  : gmap string jval :=
  {[ "id" := JStr ident; "ministroRelator" := JStr relator;
     "siglaClasse" := JStr classe; "dataDecisao" := JStr data_dec;
     "ementa" := JStr texto ]}.

Definition raw1 : gmap string jval :=
  raw_record "1" "SILVA" "REsp" "20200101" "dano moral".
Definition raw2 : gmap string jval :=
  raw_record "2" "COSTA" "AgInt" "20191231" "dano material em contrato".
Definition raw3 : gmap string jval :=
  raw_record "3" "SILVA" "REsp" "20210315" "contrato de dano dano".
(** Record 1 again, with another text. *)
Definition raw1' : gmap string jval :=
  raw_record "1" "SILVA" "REsp" "20200101" "dano moral revisto".
(** A record without its identifier. *)
Definition raw_no_id : gmap string jval :=
  {[ "ementa" := JStr "sem identificador" ]}.
(** A record whose notes are a list, which SQLite cannot bind. *)
Definition raw_unbindable : gmap string jval :=
  {[ "id" := JStr "8"; "notas" := JList [JStr "ver tema 1"] ]}.
Definition raw7 : gmap string jval :=
  raw_record "7" "COSTA" "HC" "20180202" "habeas corpus".
Definition raw9 : gmap string jval :=
  raw_record "9" "COSTA" "HC" "20180203" "habeas corpus".

Definition normalized (raw : list (gmap string jval)) : list models.Acordao :=
  match models.from_json_all rt raw with
  | Ok l => l
  | Raise _ => []
  end.

Definition empty_conn : db.conn := {| db.acordaos := []; db.sync_state := [] |}.

(** The store after upserting records 1, 2 and 3. *)
Definition conn3 : db.conn :=
  snd (db.upsert_acordaos empty_conn (normalized [raw1; raw2; raw3])).

(** The first two datasets of [config.DATASETS]. *)
Definition corte_especial : string := "espelhos-de-acordaos-corte-especial".
Definition primeira_secao : string := "espelhos-de-acordaos-primeira-secao".

(** A process that has just started on an empty database. *)
Definition start : state :=
  {| conn := empty_conn; files := ∅; requests := []; slept := O;
     console := []; total_upserted := O |}.

(** A JSON resource whose download fails on every attempt. *)
Definition res_down : resource :=
  {| res_id := "r-down"; res_name := "20220501.json"; res_format := "JSON";
     res_url := "https://stj.example/down.json" |}.

(** A JSON resource with records 1 and 2 and, between them, a record
    without identifier. *)
Definition res_malformed : resource :=
  {| res_id := "r-malformed"; res_name := "20220601.json"; res_format := "json";
     res_url := "https://stj.example/malformed.json" |}.

(** A JSON resource with records 7, 8 and 9, of which 8 cannot be bound. *)
Definition res_unbindable : resource :=
  {| res_id := "r-unbindable"; res_name := "20220615.json";
     res_format := "JSON"; res_url := "https://stj.example/unbindable.json" |}.

(** A JSON resource with records 1 and 2, answered at the second attempt. *)
Definition res_json : resource :=
  {| res_id := "r-json"; res_name := "20220701.json"; res_format := "JSON";
     res_url := "https://stj.example/ok.json" |}.

(** An archive with record 3 in one file, and a file that is not data. *)
Definition res_zip : resource :=
  {| res_id := "r-zip"; res_name := "2021.zip"; res_format := "ZIP";
     res_url := "https://stj.example/2021.zip" |}.

(** An archive of three files; the second holds a record without
    identifier. *)
Definition res_zip_malformed : resource :=
  {| res_id := "r-zip-malformed"; res_name := "2020.zip"; res_format := "ZIP";
     res_url := "https://stj.example/2020.zip" |}.

(** The glossary, which is not case data. *)
Definition res_dictionary : resource :=
  {| res_id := "r-dict"; res_name := "dicionario-espelhos.json";
     res_format := "JSON"; res_url := "https://stj.example/dicionario.json" |}.

Definition downloads_json (url : string) (attempt : nat)
  : option (list (gmap string jval)) :=
  if String.eqb url (res_url res_malformed) then Some [raw1; raw_no_id; raw2]
  else if String.eqb url (res_url res_unbindable) then
    Some [raw7; raw_unbindable; raw9]
  else if String.eqb url (res_url res_json) then
    match attempt with
    | O => None
    | S _ => Some [raw1; raw2]
    end
  else None.

Definition downloads_zip (url : string) (attempt : nat)
  : option (list (string * content)) :=
  if String.eqb url (res_url res_zip) then
    Some [("2021/a.json", FJson [raw3]); ("LEIAME.txt", FGarbage)]
  else if String.eqb url (res_url res_zip_malformed) then
    Some [("a.json", FJson [raw1]); ("b.json", FJson [raw_no_id]);
          ("c.json", FJson [raw2])]
  else None.

(** The first dataset lists a failing download, a malformed payload, a
    payload that cannot be bound, the glossary and a healthy archive; the
    other datasets list nothing. *)
Definition catalog_mixed : World :=
  {| package_show := fun dataset _ =>
       if String.eqb dataset corte_especial
       then Some [res_down; res_malformed; res_unbindable; res_dictionary;
                  res_zip]
       else Some [];
     get_json := downloads_json;
     get_zip := downloads_zip |}.

(** The catalog does not answer for the first dataset; the second one
    lists a healthy resource. *)
Definition catalog_listing_down : World :=
  {| package_show := fun dataset _ =>
       if String.eqb dataset corte_especial then None
       else if String.eqb dataset primeira_secao then Some [res_json]
       else Some [];
     get_json := downloads_json;
     get_zip := downloads_zip |}.

(** The first dataset lists the archive with the malformed file. *)
Definition catalog_zip_malformed : World :=
  {| package_show := fun dataset _ =>
       if String.eqb dataset corte_especial then Some [res_zip_malformed]
       else Some [];
     get_json := downloads_json;
     get_zip := downloads_zip |}.



End scenario.

(** ** Vocabulary of the statements *)

Section Vocabulary.
Import sqlite.

(** Number of rows of a table that carry identifier [i]. *)
Definition count_id (i : string) (tbl : list row) : nat :=
  length (List.filter (row_has_id i) tbl).

(** [insert_all rows tbl]: the table after inserting-or-replacing every row
    of [rows], in order. *)
Definition insert_all (rows : list row) (tbl : list row) : list row :=
  fold_left (fun t r => insert_or_replace r t) rows tbl.

Definition replaced_by (rows : list row) (old : row) : bool :=
  existsb (fun new => pk_clash new old) rows.

Definition has_text_id (r : row) : Prop := exists i, row_id r = SText i.

(** The decision date of a search result. *)
Definition decision_date (x : row * Q) : sqlval :=
  db.column "data_decisao" (fst x).

(** A substring filter as the code applies it: absent or empty, it keeps
    every row; otherwise it keeps the rows whose column is not NULL and
    matches the pattern [%value%] under [LIKE]. *)
Definition passes_like (value : option string) (col : string) (r : row) : bool :=
  negb (truthy_arg value)
  || sql_like (db.column col r) ("%" ++ default "" value ++ "%")%string.

(** The date filter as the code applies it. *)
Definition passes_since (desde : option string) (r : row) : bool :=
  negb (truthy_arg desde)
  || sql_ge (db.column "data_decisao" r) (default "" desde).

(** The rows a search selects: full-text match and all three filters. *)
Definition selected (m : row -> bool) (ministro classe desde : option string)
    (r : row) : bool :=
  m r && passes_like ministro "ministro_relator" r
  && passes_like classe "sigla_classe" r
  && passes_since desde r.





End Vocabulary.

(** The store holds a record with identifier [i]. *)
Definition has_record (c : db.conn) (i : string) : bool :=
  existsb (sqlite.row_has_id i) (db.acordaos c).

(** What a retry loop of three attempts ends with: the first answer among
    the attempts, if any. *)
Definition first_reply {A : Type} (send : nat -> option A) : option A :=
  match send 0%nat with
  | Some a => Some a
  | None =>
      match send 1%nat with
      | Some a => Some a
      | None => send 2%nat
      end
  end.

(** The ingestible resources the catalog lists for a dataset. *)
Definition data_resources (w : World) (dataset : string) : list resource :=
  match first_reply (package_show w dataset) with
  | Some resources => client.filter_data_resources resources
  | None => []
  end.

(** The datasets a run of [sync_all] goes through. *)
Definition targeted (dataset_filter : option string) : list string :=
  if truthy_arg dataset_filter then [default "" dataset_filter]
  else config.DATASETS.

Definition is_zip (res : resource) : bool :=
  String.eqb (client.upper (res_format res)) "ZIP".

Definition json_members (members : list (string * content))
  : list (string * content) :=
  List.filter (fun m => client.endswith (fst m) ".json") members.

Section Payloads.
Context (rt : PyRuntime) (w : World).

(** A payload every record of which has its identifier and only values
    that SQLite can bind. *)
Definition ingestible (raw : list (gmap string jval)) : bool :=
  match models.from_json_all rt raw with
  | Ok records =>
      forallb
        (fun a =>
           match sqlite.bind_params (models.astuple a) with
           | Ok _ => true
           | Raise _ => false
           end)
        records
  | Raise _ => false
  end.




(** A resource whose own processing has nothing to fail on: the download
    is answered within the three attempts and every payload is
    ingestible (the members of an archive have distinct names). *)
Definition healthy (res : resource) : Prop :=
  if is_zip res then
    exists members,
      first_reply (get_zip w (res_url res)) = Some members
      /\ List.NoDup (map fst (json_members members))
      /\ (forall m, In m (json_members members) ->
            exists raw, snd m = FJson raw /\ ingestible raw = true)
  else
    exists raw,
      first_reply (get_json w (res_url res)) = Some raw
      /\ ingestible raw = true.

End Payloads.

(** Nothing is lost from [s] to [s']: records, sync markers and the trace
    of requests only grow. *)
Definition grows (s s' : state) : Prop :=
  (forall i, has_record (conn s) i = true -> has_record (conn s') i = true)
  /\ (forall d r, db.is_synced (conn s) d r = true ->
                  db.is_synced (conn s') d r = true)
  /\ (exists new, requests s' = requests s ++ new).

(** The URL [u] is requested between [s] and [s']. *)
Definition fetched_between (u : string) (s s' : state) : Prop :=
  exists new, requests s' = requests s ++ new /\ In u new.

(** The sync markers of [s'] are those of [s] or belong to [K]. *)
Definition marks_within (K : string -> string -> Prop) (s s' : state) : Prop :=
  forall d r, db.is_synced (conn s') d r = true ->
              db.is_synced (conn s) d r = true \/ K d r.


(** Every run of [m] takes a state to one related to it by [R]. *)
Definition preserves (R : state -> state -> Prop) {A : Type} (m : M A) : Prop :=
  forall s, R s (snd (m s)).

(** [s'] differs from [s] by its trace of requests and its clock only. *)
Definition same_but_requests (s s' : state) : Prop :=
  conn s' = conn s /\ files s' = files s /\ console s' = console s
  /\ total_upserted s' = total_upserted s.






(** ** Vocabulary of the further properties *)

(** Number of markers of the key [(dataset, resource_id)]. *)
Definition count_marker (dataset resource_id : string) (c : db.conn) : nat :=
  length (List.filter (db.same_marker dataset resource_id) (db.sync_state c)).

(** A record every field of which SQLite can bind. *)
Definition bindable (a : models.Acordao) : bool :=
  match sqlite.bind_params (models.astuple a) with
  | Ok _ => true
  | Raise _ => false
  end.

(** The JSON values [from_json] turns into a text for the two reference
    fields: null, a string, a list. *)
Definition null_text_or_list (v : jval) : bool :=
  match v with
  | JNull => true
  | JStr _ => true
  | JList _ => true
  | _ => false
  end.

(** The sum of the counts of a breakdown. *)
Definition sum_counts (groups : list (sqlite.sqlval * nat)) : nat :=
  list_sum (map snd groups).

(** The number of rows whose grouping key is [k]. *)
Definition rows_in_group (key : sqlite.row -> sqlite.sqlval) (k : sqlite.sqlval)
    (rows : list sqlite.row) : nat :=
  length (List.filter (fun r => sqlite.sqlval_eqb (key r) k) rows).

(** The count a breakdown records for the key [k], 0 when it has no such
    group. *)
Definition count_of (k : sqlite.sqlval) (groups : list (sqlite.sqlval * nat))
  : nat :=
  match List.find (fun g => sqlite.sqlval_eqb k (fst g)) groups with
  | Some g => snd g
  | None => O
  end.

(** The number of attempts a retry loop makes: it stops at the first
    answer, and after the third attempt. *)
Definition attempts_made {A : Type} (send : nat -> option A) : nat :=
  match send 0%nat with
  | Some _ => 1
  | None => match send 1%nat with Some _ => 2 | None => 3 end
  end.

(** The seconds slept between [n] attempts: [RETRY_DELAY * (attempt + 1)]
    after each attempt but the last. *)
Definition backoff (n : nat) : nat :=
  list_sum (map (fun attempt => client.RETRY_DELAY * (attempt + 1)) (seq 0 (n - 1))).

(** [s'] is [s] after a retry loop on [url]: one request of [url] per
    attempt, the waits in between, and nothing else. *)
Definition retried {A : Type} (url : string) (send : nat -> option A)
    (s s' : state) : Prop :=
  requests s' = requests s ++ repeat url (attempts_made send)
  /\ slept s' = slept s + backoff (attempts_made send)
  /\ conn s' = conn s /\ files s' = files s /\ console s' = console s
  /\ total_upserted s' = total_upserted s.




(** * Properties *)

(** ** The store: [INSERT OR REPLACE] on the primary key *)

Section Store.
Import sqlite.

Lemma filter_twice {A : Type} (p q : A -> bool) (l : list A) :
  List.filter p (List.filter q l) = List.filter (fun x => q x && p x) l.
Proof.
  induction l as [|x l IH]; simpl; [reflexivity|].
  destruct (q x); simpl; [destruct (p x)|]; rewrite IH; reflexivity.
Qed.

Lemma filter_none {A : Type} (p : A -> bool) (l : list A) :
  (forall x, In x l -> p x = false) -> List.filter p l = [].
Proof.
  induction l as [|x l IH]; simpl; intros H; [reflexivity|].
  rewrite (H x (or_introl eq_refl)). apply IH. intros y Hy. apply H. now right.
Qed.

Lemma filter_ext_in' {A : Type} (p q : A -> bool) (l : list A) :
  (forall x, In x l -> p x = q x) -> List.filter p l = List.filter q l.
Proof.
  induction l as [|x l IH]; simpl; intros H; [reflexivity|].
  rewrite (H x (or_introl eq_refl)), IH; [reflexivity|].
  intros y Hy. apply H. now right.
Qed.

(** The rows already in the table that survive, followed by what the batch
    leaves of itself. *)
Lemma insert_all_split (rows tbl : list row) :
  insert_all rows tbl =
  List.filter (fun old => negb (replaced_by rows old)) tbl ++ insert_all rows [].
Proof.
  revert tbl. induction rows as [|r rows IH]; intros tbl; simpl.
  - rewrite app_nil_r. induction tbl as [|x tbl IHt]; simpl; congruence.
  - unfold insert_all in *. simpl. rewrite IH. rewrite (IH (insert_or_replace r [])).
    unfold insert_or_replace. simpl. rewrite List.filter_app, filter_twice.
    rewrite <- app_assoc. f_equal.
    apply filter_ext_in'. intros x _. now rewrite negb_orb.
Qed.

Lemma insert_all_In (rows tbl : list row) (x : row) :
  In x (insert_all rows tbl) -> In x tbl \/ In x rows.
Proof.
  revert tbl. induction rows as [|r rows IH]; intros tbl; simpl; [tauto|].
  intros H. apply IH in H as [H|H]; [|tauto].
  unfold insert_or_replace in H. apply in_app_or in H as [H|[<-|[]]].
  - apply filter_In in H. tauto.
  - tauto.
Qed.

Lemma pk_clash_refl (r : row) : has_text_id r -> pk_clash r r = true.
Proof.
  intros [i Hi]. unfold pk_clash, row_has_id. rewrite Hi. apply String.eqb_refl.
Qed.

(** Inserting a batch a second time changes nothing. *)
Lemma insert_all_idempotent (rows tbl : list row) :
  Forall has_text_id rows ->
  insert_all rows (insert_all rows tbl) = insert_all rows tbl.
Proof.
  intros Hrows.
  rewrite (insert_all_split rows (insert_all rows tbl)).
  rewrite (insert_all_split rows tbl) at 1.
  rewrite List.filter_app, filter_twice.
  rewrite (insert_all_split rows tbl). rewrite <- app_assoc. f_equal.
  - apply filter_ext_in'. intros x _. now destruct (replaced_by rows x).
  - rewrite filter_none; [reflexivity|].
    intros x Hx. apply insert_all_In in Hx as [[]|Hx].
    unfold replaced_by. apply negb_false_iff, existsb_exists.
    exists x. split; [assumption|]. apply pk_clash_refl.
    rewrite List.Forall_forall in Hrows. now apply Hrows.
Qed.

Lemma count_id_app (i : string) (a b : list row) :
  count_id i (a ++ b) = (count_id i a + count_id i b)%nat.
Proof. unfold count_id. now rewrite List.filter_app, length_app. Qed.

Lemma count_id_insert (i : string) (r : row) (tbl : list row) :
  count_id i (insert_or_replace r tbl) =
  if row_has_id i r then 1%nat else count_id i tbl.
Proof.
  unfold insert_or_replace. rewrite count_id_app. unfold count_id at 2. simpl.
  destruct (row_has_id i r) eqn:Hr; simpl.
  - unfold count_id. rewrite filter_twice, filter_none; [reflexivity|].
    intros x _. unfold pk_clash. unfold row_has_id in Hr.
    destruct (row_id r) as [|j]; [discriminate|].
    apply String.eqb_eq in Hr as <-.
    now destruct (row_has_id i x).
  - rewrite Nat.add_0_r. unfold count_id. rewrite filter_twice. f_equal.
    apply filter_ext_in'. intros x _. unfold pk_clash.
    destruct (row_id r) as [|j] eqn:Hj; [now destruct (row_has_id i x)|].
    destruct (row_has_id i x) eqn:Hx; [|now rewrite andb_false_r].
    rewrite andb_true_r. unfold row_has_id in *. rewrite Hj in Hr.
    destruct (row_id x) as [|k]; [discriminate|].
    apply String.eqb_eq in Hx as <-. apply String.eqb_neq in Hr.
    apply negb_true_iff, String.eqb_neq. congruence.
Qed.

(** A batch never leaves two rows with one identifier where there were not
    two before. *)
Lemma count_id_insert_all_le (i : string) (rows tbl : list row) :
  (count_id i tbl <= 1)%nat -> (count_id i (insert_all rows tbl) <= 1)%nat.
Proof.
  revert tbl. induction rows as [|r rows IH]; intros tbl H; simpl; [assumption|].
  apply IH. rewrite count_id_insert. destruct (row_has_id i r); lia.
Qed.

(** Every identifier written by the batch ends up on exactly one row. *)
Lemma count_id_insert_all_one (i : string) (rows tbl : list row) :
  existsb (row_has_id i) rows = true -> count_id i (insert_all rows tbl) = 1%nat.
Proof.
  revert tbl. induction rows as [|r rows IH]; intros tbl; simpl; [discriminate|].
  intros H. destruct (existsb (row_has_id i) rows) eqn:Hrest.
  - now apply IH.
  - rewrite orb_false_r in H.
    assert (Hone : count_id i (insert_or_replace r tbl) = 1%nat)
      by (rewrite count_id_insert; now rewrite H).
    clear H. revert Hone. generalize (insert_or_replace r tbl). clear tbl IH.
    induction rows as [|r' rows IH]; intros t Ht; simpl; [assumption|].
    simpl in Hrest. apply orb_false_iff in Hrest as [Hr' Hrest].
    apply IH; [assumption|]. rewrite count_id_insert. now rewrite Hr'.
Qed.

Lemma find_filter_same {A : Type} (p q : A -> bool) (l : list A) :
  (forall x, p x = true -> q x = true) ->
  List.find p (List.filter q l) = List.find p l.
Proof.
  intros H. induction l as [|x l IH]; simpl; [reflexivity|].
  destruct (q x) eqn:Hq; simpl.
  - now rewrite IH.
  - destruct (p x) eqn:Hp; [|assumption].
    apply H in Hp. congruence.
Qed.

Lemma find_app_some {A : Type} (p : A -> bool) (l l' : list A) (x : A) :
  List.find p l = Some x -> List.find p (l ++ l') = Some x.
Proof.
  induction l as [|y l IH]; simpl; [discriminate|].
  destruct (p y); [trivial|assumption].
Qed.

Lemma find_none_count (i : string) (tbl : list row) :
  count_id i tbl = 0%nat -> List.find (row_has_id i) tbl = None.
Proof.
  unfold count_id. induction tbl as [|x tbl IH]; simpl; [reflexivity|].
  destruct (row_has_id i x); simpl; [discriminate|assumption].
Qed.

Lemma no_clash_other_id (i : string) (r x : row) :
  row_has_id i r = false -> row_has_id i x = true -> negb (pk_clash r x) = true.
Proof.
  intros Hr Hx. unfold pk_clash. destruct (row_id r) as [|j] eqn:Hj; [reflexivity|].
  unfold row_has_id in *. rewrite Hj in Hr.
  destruct (row_id x) as [|k]; [discriminate|].
  apply String.eqb_eq in Hx as <-. apply String.eqb_neq in Hr.
  apply negb_true_iff, String.eqb_neq. congruence.
Qed.

(** The row of the last write of an identifier is the one a lookup finds. *)
Lemma find_insert_all_last (i : string) (pre post : list row) (r : row)
    (tbl : list row) :
  row_has_id i r = true ->
  existsb (row_has_id i) post = false ->
  List.find (row_has_id i) (insert_all (pre ++ r :: post) tbl) = Some r.
Proof.
  intros Hr Hpost. unfold insert_all. rewrite fold_left_app. simpl.
  fold (insert_all pre tbl). generalize (insert_all pre tbl). intros t.
  assert (H0 : List.find (row_has_id i) (insert_or_replace r t) = Some r).
  { unfold insert_or_replace.
    assert (Hz : count_id i (List.filter (fun old => negb (pk_clash r old)) t) = 0%nat).
    { pose proof (count_id_insert i r t) as Hc. rewrite Hr in Hc.
      unfold insert_or_replace in Hc. rewrite count_id_app in Hc.
      unfold count_id at 2 in Hc. simpl in Hc. rewrite Hr in Hc. simpl in Hc. lia. }
    apply find_none_count in Hz.
    revert Hz. generalize (List.filter (fun old => negb (pk_clash r old)) t).
    intros l. induction l as [|y l IH]; simpl.
    - now rewrite Hr.
    - destruct (row_has_id i y); [discriminate|assumption]. }
  revert H0. generalize (insert_or_replace r t). clear t.
  induction post as [|r' post IH]; intros t Ht; simpl; [assumption|].
  simpl in Hpost. apply orb_false_iff in Hpost as [Hr' Hpost].
  apply IH; [assumption|]. unfold insert_or_replace.
  apply find_app_some. rewrite find_filter_same; [assumption|].
  intros x Hx. now apply (no_clash_other_id i).
Qed.

Lemma bind_astuple (a : models.Acordao) (r : row) :
  bind_params (models.astuple a) = Ok r -> row_id r = SText (models.id a).
Proof.
  unfold models.astuple. simpl.
  destruct (match bind_param (models.numero_documento a) with
            | Ok x => _ | Raise e => _ end) as [r'|e]; [|discriminate].
  intros [= <-]. reflexivity.
Qed.

(** A successful [executemany] is the fold of [insert_or_replace] over the
    bound tuples. *)
Lemma executemany_insert_ok (tuples : list (list jval)) (tbl t' : list row) :
  executemany_insert tbl tuples = (Ok tt, t') ->
  exists rows,
    Forall2 (fun p r => bind_params p = Ok r) tuples rows
    /\ t' = insert_all rows tbl.
Proof.
  revert tbl. induction tuples as [|p tuples IH]; intros tbl; simpl.
  - intros [= <-]. exists []. split; [constructor|reflexivity].
  - destruct (bind_params p) as [r|e] eqn:Hp; [|discriminate].
    intros H. apply IH in H as (rows & HF & ->).
    exists (r :: rows). split; [now constructor|reflexivity].
Qed.

Lemma executemany_insert_bound (tuples : list (list jval)) (rows tbl : list row) :
  Forall2 (fun p r => bind_params p = Ok r) tuples rows ->
  executemany_insert tbl tuples = (Ok tt, insert_all rows tbl).
Proof.
  intros HF. revert tbl. induction HF as [|p r tuples rows Hp HF IH]; intros tbl.
  - reflexivity.
  - simpl. rewrite Hp. apply IH.
Qed.

Lemma executemany_insert_unit (tuples : list (list jval)) (tbl t' : list row)
    (u : unit) :
  executemany_insert tbl tuples = (Ok u, t') ->
  executemany_insert tbl tuples = (Ok tt, t').
Proof. now destruct u. Qed.

End Store.

(** C4. Upsert idempotence and uniqueness.  When a batch has been upserted,
    upserting the same batch again returns the same count and leaves the
    store exactly as it was (so the number of rows is the same); every
    identifier of the batch sits on exactly one row; an identifier that had
    at most one row before still has at most one; and the row found for an
    identifier is the complete tuple of the last record of the batch that
    carries it, whatever the store held before. *)
Theorem upsert_twice_same_store (c c1 : db.conn)
    (records : list models.Acordao) (n : nat) :
  db.upsert_acordaos c records = (Ok n, c1) ->
  db.upsert_acordaos c1 records = (Ok n, c1)
  /\ n = length records
  /\ (forall r, In r records -> count_id (models.id r) (db.acordaos c1) = 1%nat)
  /\ (forall i, (count_id i (db.acordaos c) <= 1)%nat ->
                (count_id i (db.acordaos c1) <= 1)%nat)
  /\ (forall pre r post,
        records = pre ++ r :: post ->
        (forall r', In r' post -> models.id r' <> models.id r) ->
        exists tuple,
          sqlite.bind_params (models.astuple r) = Ok tuple
          /\ db.get_by_id c1 (models.id r) = Some tuple).
Proof.
  unfold db.upsert_acordaos. destruct records as [|r0 records].
  - intros [= <- <-]. split; [reflexivity|]. split; [reflexivity|].
    split; [intros r []|]. split; [trivial|].
    intros pre r post H. now destruct pre.
  - set (batch := r0 :: records).
    destruct (sqlite.executemany_insert (db.acordaos c) (map models.astuple batch))
      as [[u|e] t] eqn:Hex; [|discriminate].
    intros [= <- <-]. simpl db.acordaos.
    apply executemany_insert_unit, executemany_insert_ok in Hex as (rows & HF & ->).
    assert (Hids : forall r, In r batch ->
              exists row, In row rows /\ sqlite.row_id row = sqlite.SText (models.id r)
                          /\ sqlite.bind_params (models.astuple r) = Ok row).
    { clear -HF. revert rows HF. induction batch as [|a batch IH]; intros rows HF r Hr.
      - destruct Hr.
      - simpl in HF. inversion HF as [|p row ps rows' Hp HF' E1 E2]; subst.
        destruct Hr as [<-|Hr].
        + exists row. split; [now left|]. split; [now apply bind_astuple|assumption].
        + destruct (IH rows' HF' r Hr) as (row' & Hin & Hid & Hb).
          exists row'. split; [now right|]. now split. }
    assert (Htext : Forall has_text_id rows).
    { clear -HF. revert rows HF. induction batch as [|a batch IH]; intros rows HF.
      - inversion HF. constructor.
      - simpl in HF. inversion HF as [|p row ps rows' Hp HF' E1 E2]; subst.
        constructor; [|now apply IH].
        exists (models.id a). now apply bind_astuple. }
    repeat split.
    + rewrite (executemany_insert_bound _ rows _ HF).
      rewrite insert_all_idempotent by assumption. reflexivity.
    + now rewrite length_map.
    + intros r Hr. destruct (Hids r Hr) as (row & Hin & Hid & _).
      apply count_id_insert_all_one. apply existsb_exists. exists row.
      split; [assumption|]. unfold sqlite.row_has_id. rewrite Hid.
      apply String.eqb_refl.
    + intros i. apply count_id_insert_all_le.
    + intros pre r post Hsplit Hpost.
      assert (Hmap : map models.astuple batch =
                     map models.astuple pre ++ models.astuple r :: map models.astuple post)
        by (rewrite Hsplit, map_app; reflexivity).
      rewrite Hmap in HF. apply Forall2_app_inv_l in HF as (rpre & rrest & HFpre & HFrest & ->).
      inversion HFrest as [|p row ps rpost Hp HFpost E1 E2]; subst p ps rrest.
      exists row. split; [assumption|]. unfold db.get_by_id. simpl db.acordaos.
      apply find_insert_all_last.
      * unfold sqlite.row_has_id. rewrite (bind_astuple _ _ Hp). apply String.eqb_refl.
      * apply not_true_is_false. intros Hex. apply existsb_exists in Hex as (x & Hx & Hid).
        clear -HFpost Hx Hid Hpost.
        revert rpost HFpost Hx. induction post as [|a post IH]; intros rpost HF Hx.
        -- inversion HF; subst. destruct Hx.
        -- simpl in HF. inversion HF as [|p row' ps rows' Hp HF' E1 E2]; subst.
           destruct Hx as [->|Hx].
           ++ apply bind_astuple in Hp. unfold sqlite.row_has_id in Hid.
              rewrite Hp in Hid. apply String.eqb_eq in Hid.
              apply (Hpost a); [now left|congruence].
           ++ apply (IH (fun r' H' => Hpost r' (or_intror H')) rows' HF' Hx).
Qed.

(** Records 1, 2 and again 1 upserted twice into the empty store. *)
Lemma upsert_twice_same_store_witness :
  let batch := scenario.normalized [scenario.raw1; scenario.raw2; scenario.raw1'] in
  let c1 := snd (db.upsert_acordaos scenario.empty_conn batch) in
  db.upsert_acordaos scenario.empty_conn batch = (Ok 3%nat, c1)
  /\ db.upsert_acordaos c1 batch = (Ok 3%nat, c1)
  /\ length (db.acordaos c1) = 2%nat.
Proof.
  cbv zeta. split; [vm_compute; reflexivity|].
  split; [|vm_compute; reflexivity].
  apply (upsert_twice_same_store scenario.empty_conn).
  vm_compute; reflexivity.
Defined.

(** ** The engine's comparisons and [ORDER BY] *)

Lemma ascii_compare_N (a b : ascii) :
  Ascii.compare a b = (N_of_ascii a ?= N_of_ascii b)%N.
Proof. reflexivity. Qed.

Lemma string_compare_trans_le (a b c : string) :
  String.compare a b <> Gt -> String.compare b c <> Gt ->
  String.compare a c <> Gt.
Proof.
  revert b c. induction a as [|x a IH]; intros [|y b] [|z c]; simpl;
    try congruence.
  rewrite !ascii_compare_N.
  destruct (N.compare_spec (N_of_ascii x) (N_of_ascii y)) as [Exy|Lxy|Gxy];
    destruct (N.compare_spec (N_of_ascii y) (N_of_ascii z)) as [Eyz|Lyz|Gyz];
    try congruence; intros H1 H2.
  - assert (E : (N_of_ascii x ?= N_of_ascii z)%N = Eq)
      by (apply N.compare_eq_iff; congruence).
    rewrite E. now apply (IH b).
  - assert (E : (N_of_ascii x ?= N_of_ascii z)%N = Lt)
      by (apply N.compare_lt_iff; lia).
    rewrite E. discriminate.
  - assert (E : (N_of_ascii x ?= N_of_ascii z)%N = Lt)
      by (apply N.compare_lt_iff; lia).
    rewrite E. discriminate.
  - assert (E : (N_of_ascii x ?= N_of_ascii z)%N = Lt)
      by (apply N.compare_lt_iff; lia).
    rewrite E. discriminate.
Qed.

Lemma string_leb_trans (a b c : string) :
  String.leb a b = true -> String.leb b c = true -> String.leb a c = true.
Proof.
  unfold String.leb. intros H1 H2.
  pose proof (string_compare_trans_le a b c) as H.
  destruct (String.compare a b); destruct (String.compare b c);
    destruct (String.compare a c); try reflexivity; try discriminate;
    exfalso; apply H; congruence.
Qed.

Lemma sqlval_leb_total (a b : sqlite.sqlval) :
  sqlite.sqlval_leb a b = true \/ sqlite.sqlval_leb b a = true.
Proof.
  destruct a as [|x], b as [|y]; simpl; auto. apply String.leb_total.
Qed.

Lemma sqlval_leb_trans (a b c : sqlite.sqlval) :
  sqlite.sqlval_leb a b = true -> sqlite.sqlval_leb b c = true ->
  sqlite.sqlval_leb a c = true.
Proof.
  destruct a as [|x], b as [|y], c as [|z]; simpl; try congruence.
  apply string_leb_trans.
Qed.

Section OrderByFacts.
Context {A : Type} (leb : A -> A -> bool).
Hypothesis leb_total : forall x y, leb x y = true \/ leb y x = true.
Hypothesis leb_trans :
  forall x y z, leb x y = true -> leb y z = true -> leb x z = true.

Lemma insert_sorted_perm (x : A) (l : list A) :
  Permutation (sqlite.insert_sorted leb x l) (x :: l).
Proof.
  induction l as [|y l IH]; simpl; [reflexivity|].
  destruct (leb x y); [reflexivity|].
  rewrite IH. apply perm_swap.
Qed.

Lemma order_by_perm (l : list A) : Permutation (sqlite.order_by leb l) l.
Proof.
  induction l as [|x l IH]; simpl; [reflexivity|].
  rewrite insert_sorted_perm. now constructor.
Qed.

Lemma insert_sorted_Forall (P : A -> Prop) (x : A) (l : list A) :
  P x -> List.Forall P l -> List.Forall P (sqlite.insert_sorted leb x l).
Proof.
  intros Hx Hl. induction Hl as [|y l Hy Hl IH]; simpl.
  - constructor; [assumption|constructor].
  - destruct (leb x y); repeat constructor; assumption.
Qed.

Lemma insert_sorted_sorted (x : A) (l : list A) :
  StronglySorted (fun a b => leb a b = true) l ->
  StronglySorted (fun a b => leb a b = true) (sqlite.insert_sorted leb x l).
Proof.
  intros Hl. induction Hl as [|y l Hl IH Hy]; simpl.
  - constructor; constructor.
  - destruct (leb x y) eqn:Hxy.
    + constructor; [now constructor|].
      constructor; [assumption|].
      eapply List.Forall_impl; [|exact Hy].
      intros z Hz. now apply (leb_trans x y z).
    + constructor; [assumption|].
      apply insert_sorted_Forall; [|assumption].
      destruct (leb_total x y) as [H|H]; [congruence|assumption].
Qed.

Lemma order_by_sorted (l : list A) :
  StronglySorted (fun a b => leb a b = true) (sqlite.order_by leb l).
Proof.
  induction l as [|x l IH]; simpl; [constructor|now apply insert_sorted_sorted].
Qed.

End OrderByFacts.

Lemma firstn_sorted {A : Type} (R : A -> A -> Prop) (n : nat) (l : list A) :
  StronglySorted R l -> StronglySorted R (firstn n l).
Proof.
  intros Hl. revert n. induction Hl as [|x l Hl IH Hx]; intros [|n]; simpl;
    try constructor.
  - apply IH.
  - rewrite List.Forall_forall in *. intros y Hy. apply Hx.
    revert Hy. clear. revert n. induction l as [|z l IH]; intros [|n]; simpl;
      try tauto.
    intros [->|H]; [now left|right; now apply (IH n)].
Qed.

Lemma sql_limit_sorted {A : Type} (R : A -> A -> Prop) (n : Z) (l : list A) :
  StronglySorted R l -> StronglySorted R (sqlite.sql_limit n l).
Proof.
  unfold sqlite.sql_limit. destruct (n <? 0)%Z; [trivial|apply firstn_sorted].
Qed.

Lemma sql_limit_In {A : Type} (n : Z) (l : list A) (x : A) :
  In x (sqlite.sql_limit n l) -> In x l.
Proof.
  unfold sqlite.sql_limit. destruct (n <? 0)%Z; [trivial|].
  generalize (Z.to_nat n). intros k. revert k.
  induction l as [|z l IH]; intros [|k]; simpl; try tauto.
  intros [->|H]; [now left|right; now apply (IH k)].
Qed.

Lemma sql_limit_length {A : Type} (n : Z) (l : list A) :
  (0 <= n)%Z -> (Z.of_nat (length (sqlite.sql_limit n l)) <= n)%Z.
Proof.
  intros Hn. unfold sqlite.sql_limit.
  destruct (n <? 0)%Z eqn:E; [apply Z.ltb_lt in E; lia|].
  rewrite length_firstn. lia.
Qed.

(** What [LIMIT] cuts off. *)
Lemma sql_limit_split {A : Type} (n : Z) (l : list A) :
  exists rest,
    l = sqlite.sql_limit n l ++ rest
    /\ ((n < 0)%Z \/ (Z.of_nat (length l) <= n)%Z -> rest = []).
Proof.
  unfold sqlite.sql_limit. destruct (n <? 0)%Z eqn:E.
  - exists []. split; [now rewrite app_nil_r|trivial].
  - apply Z.ltb_ge in E. exists (skipn (Z.to_nat n) l). split.
    + now rewrite firstn_skipn.
    + intros [H|H]; [lia|]. apply skipn_all2. lia.
Qed.

(** ** The query layer *)

Section QueryFacts.
Context (fts : db.Fts5).

(** The WHERE clauses built by [_build_filters], read on a row. *)
Lemma build_filters_eval (ministro classe desde : option string) (r : sqlite.row) :
  db.eval_filters (fst (db._build_filters ministro classe desde))
    (snd (db._build_filters ministro classe desde)) r
  = passes_like ministro "ministro_relator" r
    && passes_like classe "sigla_classe" r
    && passes_since desde r.
Proof.
  unfold db._build_filters, passes_like, passes_since.
  destruct (truthy_arg ministro), (truthy_arg classe), (truthy_arg desde);
    simpl; rewrite ?andb_true_r, ?andb_assoc; reflexivity.
Qed.

Lemma matching_selected (c : db.conn) (query : string)
    (ministro classe desde : option string) (m : sqlite.row -> bool) :
  db.fts_match fts query = Ok m ->
  db.matching fts c query (db._build_filters ministro classe desde)
  = Ok (List.filter (selected m ministro classe desde) (db.acordaos c)).
Proof.
  intros Hm. unfold db.matching. rewrite Hm. f_equal.
  apply filter_ext_in'. intros r _. rewrite build_filters_eval.
  unfold selected. now rewrite !andb_assoc.
Qed.

Lemma search_raises (c : db.conn) (query : string)
    (ministro classe desde : option string) (limit : Z) (order : string)
    (e : exn) :
  db.fts_match fts query = Raise e ->
  db.search fts c query ministro classe desde limit order = Raise e.
Proof. intros H. unfold db.search, db.matching. now rewrite H. Qed.

Lemma search_selected (c : db.conn) (query : string)
    (ministro classe desde : option string) (limit : Z) (order : string)
    (m : sqlite.row -> bool) :
  db.fts_match fts query = Ok m ->
  db.search fts c query ministro classe desde limit order
  = Ok (sqlite.sql_limit limit
          (sqlite.order_by
             (db.order_leb
                (if String.eqb order "data" then db.DataDecisaoDesc else db.Rank))
             (map (fun r => (r, db.bm25 fts query (db.acordaos c) r))
                (List.filter (selected m ministro classe desde) (db.acordaos c))))).
Proof.
  intros Hm. unfold db.search. now rewrite (matching_selected _ _ _ _ _ m Hm).
Qed.

End QueryFacts.






Lemma StronglySorted_impl {A : Type} (R R' : A -> A -> Prop) (l : list A) :
  (forall x y, R x y -> R' x y) -> StronglySorted R l -> StronglySorted R' l.
Proof.
  intros H Hl. induction Hl as [|x l Hl IH Hx]; constructor; [assumption|].
  eapply List.Forall_impl; [|exact Hx]. intros y. apply H.
Qed.

Lemma Qle_bool_total (x y : Q) : Qle_bool x y = true \/ Qle_bool y x = true.
Proof.
  rewrite !Qle_bool_iff. destruct (Qlt_le_dec x y) as [H|H]; [left|right; exact H].
  now apply Qlt_le_weak.
Qed.

Lemma Qle_bool_trans (x y z : Q) :
  Qle_bool x y = true -> Qle_bool y z = true -> Qle_bool x z = true.
Proof. rewrite !Qle_bool_iff. apply Qle_trans. Qed.




(** C6 (as amended). Ordering modes.  Every request runs in exactly one
    mode: recency when [order] is [data] (the default), relevance
    otherwise.  In recency mode the results come in non-increasing order of
    the decision date (NULL last); in relevance mode in non-decreasing
    order of the rank, which is the engine's score for the query.  When the
    result cap is not negative, at most that many rows are returned. *)
Theorem search_ordering_and_cap (fts : db.Fts5) (c : db.conn) (query : string)
    (ministro classe desde : option string) (limit : Z) (order : string)
    (result : list (sqlite.row * Q)) :
  db.search fts c query ministro classe desde limit order = Ok result ->
  (order = "data" ->
     StronglySorted
       (fun x y => sqlite.sqlval_leb (decision_date y) (decision_date x) = true)
       result)
  /\ (order <> "data" -> StronglySorted (fun x y => (snd x <= snd y)%Q) result)
  /\ (forall x, In x result -> snd x = db.bm25 fts query (db.acordaos c) (fst x))
  /\ ((0 <= limit)%Z -> (Z.of_nat (length result) <= limit)%Z)
  /\ db.default_order = "data".
Proof.
  destruct (db.fts_match fts query) as [m|e] eqn:Hm;
    [|rewrite (search_raises fts _ _ _ _ _ _ _ e Hm); discriminate].
  rewrite (search_selected fts _ _ _ _ _ _ _ m Hm). intros [= <-].
  split; [|split; [|split; [|split; [|reflexivity]]]].
  - intros ->. simpl (String.eqb _ _). apply sql_limit_sorted.
    apply (order_by_sorted (db.order_leb db.DataDecisaoDesc)).
    + intros x y. apply sqlval_leb_total.
    + intros x y z Hxy Hyz. simpl in *. now apply (sqlval_leb_trans _ _ _ Hyz).
  - intros Hne. apply String.eqb_neq in Hne. rewrite Hne.
    apply sql_limit_sorted.
    apply (StronglySorted_impl (fun x y => db.order_leb db.Rank x y = true)).
    + intros x y. simpl. apply Qle_bool_iff.
    + apply order_by_sorted.
      * intros x y. apply Qle_bool_total.
      * intros x y z. apply Qle_bool_trans.
  - intros x Hx. apply sql_limit_In in Hx.
    apply (Permutation_in _ (order_by_perm _ _)) in Hx.
    apply in_map_iff in Hx as (r & <- & _). reflexivity.
  - apply sql_limit_length.
Qed.

(** The two most recent of the three matches, most recent first. *)
Lemma search_ordering_and_cap_witness :
  StronglySorted
    (fun x y => sqlite.sqlval_leb (decision_date y) (decision_date x) = true)
    (sqlite.sql_limit 2
       (sqlite.order_by (db.order_leb db.DataDecisaoDesc)
          (map (fun r => (r, db.bm25 fts5_barewords.engine "dano"
                               (db.acordaos scenario.conn3) r))
             (db.acordaos scenario.conn3)))).
Proof.
  apply (search_ordering_and_cap fts5_barewords.engine scenario.conn3 "dano"
           None None None 2 "data"); [vm_compute|]; reflexivity.
Defined.

(** C6, the claim as stated fails: with the cap [-1] the three matching
    rows are all returned. *)
Lemma negative_limit_returns_every_match :
  exists result,
    db.search fts5_barewords.engine scenario.conn3 "dano" None None None
      (-1) "data" = Ok result
    /\ length result = 3%nat
    /\ (Z.of_nat (length result) <=? -1)%Z = false.
Proof. eexists. split; [vm_compute; reflexivity|]. split; reflexivity. Qed.




(** C10. An empty filter value is no filter.  For each of the three
    filters, [search] and [search_stats] return with the empty string what
    they return without the filter, and [_build_filters] generates the same
    clauses and parameters. *)
Theorem empty_filter_is_no_filter (fts : db.Fts5) (c : db.conn) (query : string)
    (ministro classe desde : option string) (limit : Z) (order : string) :
  db._build_filters (Some "") classe desde = db._build_filters None classe desde
  /\ db._build_filters ministro (Some "") desde = db._build_filters ministro None desde
  /\ db._build_filters ministro classe (Some "") = db._build_filters ministro classe None
  /\ db.search fts c query (Some "") classe desde limit order
     = db.search fts c query None classe desde limit order
  /\ db.search fts c query ministro (Some "") desde limit order
     = db.search fts c query ministro None desde limit order
  /\ db.search fts c query ministro classe (Some "") limit order
     = db.search fts c query ministro classe None limit order
  /\ db.search_stats fts c query (Some "") classe desde
     = db.search_stats fts c query None classe desde
  /\ db.search_stats fts c query ministro (Some "") desde
     = db.search_stats fts c query ministro None desde
  /\ db.search_stats fts c query ministro classe (Some "")
     = db.search_stats fts c query ministro classe None.
Proof. repeat split. Qed.

(** ** The sync engine: what can be raised, and where it is caught *)










Section Catching.
Context (rt : PyRuntime) (w : World).






End Catching.


(** ** State relations kept by every step of a run *)

Lemma insert_or_replace_keeps (i : string) (new : sqlite.row)
    (tbl : list sqlite.row) :
  existsb (sqlite.row_has_id i) tbl = true ->
  existsb (sqlite.row_has_id i) (sqlite.insert_or_replace new tbl) = true.
Proof.
  intros H. apply existsb_exists in H as (x & Hx & Hi).
  apply existsb_exists. unfold sqlite.insert_or_replace.
  destruct (sqlite.pk_clash new x) eqn:Hc.
  - exists new. split; [apply in_or_app; right; now left|].
    unfold sqlite.pk_clash in Hc. unfold sqlite.row_has_id in *.
    destruct (sqlite.row_id new) as [|j]; [discriminate|].
    destruct (sqlite.row_id x) as [|k]; [discriminate|].
    apply String.eqb_eq in Hc, Hi. subst. apply String.eqb_refl.
  - exists x. split; [|assumption]. apply in_or_app. left.
    apply filter_In. split; [assumption|]. now rewrite Hc.
Qed.

Lemma executemany_insert_keeps (i : string) (rows : list (list jval))
    (tbl : list sqlite.row) :
  existsb (sqlite.row_has_id i) tbl = true ->
  existsb (sqlite.row_has_id i) (snd (sqlite.executemany_insert tbl rows)) = true.
Proof.
  revert tbl. induction rows as [|p rows IH]; intros tbl H; simpl; [assumption|].
  destruct (sqlite.bind_params p); [|assumption].
  apply IH. now apply insert_or_replace_keeps.
Qed.

Section Preservation.
Context (R : state -> state -> Prop) (allowed : string -> string -> Prop).
Hypothesis R_refl : forall s, R s s.
Hypothesis R_trans : forall a b c, R a b -> R b c -> R a c.
Hypothesis R_same :
  forall s s', conn s' = conn s ->
               (exists new, requests s' = requests s ++ new) -> R s s'.
Hypothesis R_upsert :
  forall s t,
    (forall i, existsb (sqlite.row_has_id i) (db.acordaos (conn s)) = true ->
               existsb (sqlite.row_has_id i) t = true) ->
    R s (set_conn (db.set_acordaos t (conn s)) s).
Hypothesis R_mark :
  forall s d r n, allowed d r -> R s (set_conn (db.mark_synced (conn s) d r n) s).

Lemma preserves_same {A : Type} (m : M A) :
  (forall s, conn (snd (m s)) = conn s
             /\ exists new, requests (snd (m s)) = requests s ++ new) ->
  preserves R m.
Proof. intros H s. destruct (H s). now apply R_same. Qed.


Lemma preserves_bind {A B : Type} (m : M A) (k : A -> M B) :
  preserves R m -> (forall a, preserves R (k a)) -> preserves R (bind m k).
Proof.
  intros Hm Hk s. unfold bind. specialize (Hm s).
  destruct (m s) as [[a|e] s']; simpl in *; [|assumption].
  eapply R_trans; [exact Hm|apply Hk].
Qed.







Lemma preserves_unlink (path : string) : preserves R (unlink path).
Proof.
  apply preserves_same. intros s. split; [reflexivity|].
  exists []. simpl. now rewrite app_nil_r.
Qed.

Lemma preserves_set_total_upserted (n : nat) : preserves R (set_total_upserted n).
Proof.
  apply preserves_same. intros s. split; [reflexivity|].
  exists []. simpl. now rewrite app_nil_r.
Qed.



Lemma preserves_upsert (records : list models.Acordao) :
  preserves R (sync.conn_upsert_acordaos records).
Proof.
  intros s. unfold sync.conn_upsert_acordaos, db.upsert_acordaos.
  destruct records as [|a records];
    [apply R_same; [reflexivity|exists []; simpl; now rewrite app_nil_r]|].
  pose proof (fun i => executemany_insert_keeps i
                (map models.astuple (a :: records)) (db.acordaos (conn s))) as H.
  destruct (sqlite.executemany_insert _ _) as [[u|e] t]; simpl in *;
    now apply R_upsert.
Qed.

Lemma preserves_ingest (rt : PyRuntime) (raw : list (gmap string jval)) :
  preserves R (sync.ingest rt raw).
Proof.
  unfold sync.ingest. apply preserves_bind; [intros s; apply R_refl|].
  intros records. apply preserves_bind; [apply preserves_upsert|].
  intros n. intros s. unfold sync.add_total_upserted.
  apply preserves_set_total_upserted.
Qed.







End Preservation.

Lemma grows_refl (s : state) : grows s s.
Proof.
  split; [trivial|]. split; [trivial|]. exists []. now rewrite app_nil_r.
Qed.

Lemma grows_trans (a b c : state) : grows a b -> grows b c -> grows a c.
Proof.
  intros (H1 & H2 & [n Hn]) (H1' & H2' & [n' Hn']).
  split; [auto|]. split; [auto|].
  exists (n ++ n'). now rewrite Hn', Hn, app_assoc.
Qed.

Lemma grows_same (s s' : state) :
  conn s' = conn s -> (exists new, requests s' = requests s ++ new) ->
  grows s s'.
Proof. intros Hc Hr. unfold grows. rewrite Hc. now split. Qed.



Lemma grows_upsert (s : state) (t : list sqlite.row) :
  (forall i, existsb (sqlite.row_has_id i) (db.acordaos (conn s)) = true ->
             existsb (sqlite.row_has_id i) t = true) ->
  grows s (set_conn (db.set_acordaos t (conn s)) s).
Proof.
  intros H. split; [exact H|]. split; [trivial|].
  exists []. simpl. now rewrite app_nil_r.
Qed.

Lemma is_synced_mark (c : db.conn) (d r n d' r' : string) :
  db.is_synced (db.mark_synced c d r n) d' r'
  = db.is_synced c d' r' || (String.eqb d d' && String.eqb r r').
Proof.
  unfold db.is_synced, db.mark_synced. simpl. rewrite existsb_app.
  assert (Hnew : existsb (db.same_marker d' r') [(d, r, n)]
                 = String.eqb d d' && String.eqb r r')
    by (simpl; apply orb_false_r).
  rewrite Hnew. clear Hnew.
  destruct (String.eqb d d' && String.eqb r r') eqn:E;
    [now rewrite !orb_true_r|]. f_equal.
  induction (db.sync_state c) as [|m l IH]; simpl; [reflexivity|].
  destruct (db.same_marker d r m) eqn:Hm; simpl.
  - rewrite IH. unfold db.same_marker in *.
    apply andb_prop in Hm as [H1 H2]. apply String.eqb_eq in H1, H2.
    rewrite H1, H2, E. reflexivity.
  - now rewrite IH.
Qed.

Lemma grows_mark (s : state) (d r n : string) :
  True -> grows s (set_conn (db.mark_synced (conn s) d r n) s).
Proof.
  intros _. split; [trivial|]. split.
  - intros d' r' H. simpl. rewrite is_synced_mark, H. reflexivity.
  - exists []. simpl. now rewrite app_nil_r.
Qed.

Section MarksWithin.
Context (K : string -> string -> Prop).

Lemma marks_within_refl (s : state) : marks_within K s s.
Proof. intros d r H. now left. Qed.

Lemma marks_within_trans (a b c : state) :
  marks_within K a b -> marks_within K b c -> marks_within K a c.
Proof.
  intros Hab Hbc d r H. destruct (Hbc d r H) as [H'|H']; [|now right].
  now apply Hab.
Qed.

Lemma marks_within_same (s s' : state) :
  conn s' = conn s -> (exists new, requests s' = requests s ++ new) ->
  marks_within K s s'.
Proof. intros Hc _ d r H. rewrite Hc in H. now left. Qed.

Lemma marks_within_upsert (s : state) (t : list sqlite.row) :
  (forall i, existsb (sqlite.row_has_id i) (db.acordaos (conn s)) = true ->
             existsb (sqlite.row_has_id i) t = true) ->
  marks_within K s (set_conn (db.set_acordaos t (conn s)) s).
Proof. intros _ d r H. now left. Qed.

Lemma marks_within_mark (s : state) (d r n : string) :
  K d r -> marks_within K s (set_conn (db.mark_synced (conn s) d r n) s).
Proof.
  intros Hk d' r' H. simpl in H. rewrite is_synced_mark in H.
  apply orb_prop in H as [H|H]; [now left|right].
  apply andb_prop in H as [H1 H2]. apply String.eqb_eq in H1, H2. now subst.
Qed.

End MarksWithin.

(** ** What a retry loop returns *)

Lemma retry_loop_result {A : Type} (url : string) (send : nat -> option A)
    (s : state) :
  exists s',
    client.retry_loop url send (seq 0 client.MAX_RETRIES) s
    = (match first_reply send with
       | Some a => Ok a
       | None => Raise (HTTPError url)
       end, s')
    /\ same_but_requests s s'
    /\ fetched_between url s s'.
Proof.
  unfold first_reply, fetched_between. simpl.
  unfold bind, request, sleep, ret, raise. simpl.
  destruct (send 0%nat) as [a|]; simpl.
  { eexists. split; [reflexivity|]. split; [repeat split|].
    simpl. eexists. split; [reflexivity|]. now left. }
  destruct (send 1%nat) as [a|]; simpl.
  { eexists. split; [reflexivity|]. split; [repeat split|].
    simpl. rewrite <- app_assoc. eexists. split; [reflexivity|]. now left. }
  destruct (send 2%nat) as [a|]; simpl.
  { eexists. split; [reflexivity|]. split; [repeat split|].
    simpl. rewrite <- !app_assoc. eexists. split; [reflexivity|]. now left. }
  eexists. split; [reflexivity|]. split; [repeat split|].
  simpl. rewrite <- !app_assoc. eexists. split; [reflexivity|]. now left.
Qed.

Ltac relation_facts :=
  first [ exact grows_refl | exact grows_trans | exact grows_same
        | exact grows_upsert | exact grows_mark
        | apply marks_within_refl | apply marks_within_trans
        | apply marks_within_same | apply marks_within_upsert
        | apply marks_within_mark ].









Section RunFacts.
Context (rt : PyRuntime) (w : World).

Lemma ingest_grows (raw : list (gmap string jval)) (s : state) :
  grows s (snd (sync.ingest rt raw s)).
Proof. apply (preserves_ingest grows); relation_facts. Qed.

Lemma unlink_grows (path : string) (s : state) : grows s (snd (unlink path s)).
Proof. apply (preserves_unlink grows); relation_facts. Qed.









End RunFacts.

(** ** What the processing of a healthy resource leaves behind *)



Lemma bindable_rows (records : list models.Acordao) :
  forallb
    (fun a =>
       match sqlite.bind_params (models.astuple a) with
       | Ok _ => true
       | Raise _ => false
       end) records = true ->
  exists rows,
    Forall2 (fun p r => sqlite.bind_params p = Ok r)
      (map models.astuple records) rows
    /\ forall a, In a records ->
         existsb (sqlite.row_has_id (models.id a)) rows = true.
Proof.
  induction records as [|a records IH]; cbn [forallb map].
  - intros _. exists []. split; [constructor|intros a []].
  - intros H. apply andb_prop in H as [Ha H].
    destruct (sqlite.bind_params (models.astuple a)) as [r|e] eqn:Hr;
      [|discriminate].
    destruct (IH H) as (rows & HF & Hin). exists (r :: rows). split.
    + now constructor.
    + intros b [<-|Hb]; cbn [existsb].
      * unfold sqlite.row_has_id at 1. rewrite (bind_astuple _ _ Hr).
        now rewrite String.eqb_refl.
      * rewrite (Hin b Hb). apply orb_true_r.
Qed.

Section Effects.
Context (rt : PyRuntime) (w : World).



End Effects.


Section ZipEffects.
Context (rt : PyRuntime) (w : World) (dataset : string).







End ZipEffects.

(** ** One resource, one dataset, one run *)

Section Runs.
Context (rt : PyRuntime) (w : World).









End Runs.

Lemma bind_ok {A B : Type} (m : M A) (k : A -> M B) (s : state) (a : A)
    (s' : state) :
  m s = (Ok a, s') -> bind m k s = k a s'.
Proof. intros H. unfold bind. now rewrite H. Qed.

Section DatasetRuns.
Context (rt : PyRuntime) (w : World).








End DatasetRuns.

(** ** The sync engine: the claims *)





Lemma from_json_all_missing_id (rt : PyRuntime) (raw : list (gmap string jval)) :
  (exists r, In r raw /\ r !! "id" = None) ->
  models.from_json_all rt raw = Raise (KeyError "id").
Proof.
  intros (r & Hin & Hid). induction raw as [|x raw IH]; [destruct Hin|].
  simpl. destruct (models.from_json rt x) as [a|e] eqn:Hx.
  - destruct Hin as [->|Hin].
    + unfold models.from_json in Hx. rewrite Hid in Hx. discriminate.
    + now rewrite (IH Hin).
  - unfold models.from_json in Hx. destruct (x !! "id"); [discriminate|].
    now injection Hx as <-.
Qed.



(** The three kinds of failure of the run above, each caught and printed;
    the rows written before the unbindable one stay. *)
Lemma every_failure_is_caught_and_printed :
  exists total s',
    sync.sync_all scenario.rt scenario.catalog_mixed None false scenario.start
    = (Ok total, s')
    /\ In (PrintError "20220501.json"
             (HTTPError "https://stj.example/down.json")) (console s')
    /\ In (PrintError "20220601.json" (KeyError "id")) (console s')
    /\ In (PrintError "20220615.json" ProgrammingError) (console s')
    /\ db.sync_state (conn s')
       = [(scenario.corte_especial, "r-zip", "2021.zip")]
    /\ map sqlite.row_id (db.acordaos (conn s'))
       = [sqlite.SText "7"; sqlite.SText "3"].
Proof.
  eexists. eexists. split; [vm_compute; reflexivity|].
  repeat split; simpl; auto 10.
Qed.


Section ListingFailure.
Context (rt : PyRuntime) (w : World).

(** A listing that gets no answer makes [sync_dataset] raise. *)
Lemma sync_dataset_listing_fails (dataset : string) (force : bool) (s : state) :
  first_reply (package_show w dataset) = None ->
  exists s',
    sync.sync_dataset rt w dataset force s
    = (Raise (HTTPError
                (config.CKAN_BASE_URL ++ "/package_show?id=" ++ dataset)%string),
       s')
    /\ conn s' = conn s.
Proof.
  intros Hlist. unfold sync.sync_dataset, client.get_dataset_resources,
    client._request_with_retry.
  set (url := (config.CKAN_BASE_URL ++ "/package_show?id=" ++ dataset)%string).
  set (s1 := snd (print (PrintDataset dataset) s)).
  rewrite (bind_ok (print (PrintDataset dataset)) _ s tt s1 eq_refl).
  destruct (retry_loop_result url (package_show w dataset) s1)
    as (s2 & H2 & (Hc2 & _) & _).
  rewrite Hlist in H2. unfold bind. rewrite H2.
  exists s2. split; [reflexivity|]. now rewrite Hc2.
Qed.

(** And [sync_all] with it, before any later dataset is looked at. *)
Lemma sync_all_listing_fails (dataset_filter : option string) (force : bool)
    (s : state) (d : string) (rest : list string) :
  targeted dataset_filter = d :: rest ->
  first_reply (package_show w d) = None ->
  exists s',
    sync.sync_all rt w dataset_filter force s
    = (Raise (HTTPError
                (config.CKAN_BASE_URL ++ "/package_show?id=" ++ d)%string), s')
    /\ conn s' = conn s.
Proof.
  intros Ht Hlist. unfold sync.sync_all. fold (targeted dataset_filter).
  rewrite Ht. simpl.
  destruct (sync_dataset_listing_fails d force s Hlist) as (s' & Hrun & Hc).
  unfold bind. rewrite Hrun. exists s'. now split.
Qed.

End ListingFailure.

(** C3 fails on the code: when the catalog does not answer the listing of
    the first dataset, [sync_all] raises the fetch error after the three
    attempts; the second dataset, whose resource is healthy, is never
    listed and record 1 never stored. *)
Theorem listing_failure_aborts_the_run :
  exists s',
    sync.sync_all scenario.rt scenario.catalog_listing_down None false
      scenario.start
    = (Raise (HTTPError
                (config.CKAN_BASE_URL ++ "/package_show?id="
                 ++ scenario.corte_especial)%string), s')
    /\ db.acordaos (conn s') = []
    /\ length (requests s') = 3%nat
    /\ console s' = [PrintDataset scenario.corte_especial]
    /\ healthy scenario.rt scenario.catalog_listing_down scenario.res_json
    /\ data_resources scenario.catalog_listing_down scenario.primeira_secao
       = [scenario.res_json].
Proof.
  eexists. split; [vm_compute; reflexivity|].
  repeat split; try reflexivity.
  exists [scenario.raw1; scenario.raw2]. split; reflexivity.
Qed.

(** The consumption of an extracted file deletes it last: when it raises,
    the working directory is as it was. *)
Lemma failed_consumption_keeps_the_file (rt : PyRuntime) (json_file : string)
    (s s' : state) (e : exn) :
  (raw <- client.parse_json_file json_file ;;
   sync.ingest rt raw ;;
   unlink json_file) s = (Raise e, s') ->
  files s' = files s.
Proof.
  unfold bind, client.parse_json_file.
  destruct (files s !! json_file) as [[raw| |]|]; try (now intros [= _ <-]).
  unfold sync.ingest, bind, lift.
  destruct (models.from_json_all rt raw) as [records|e0];
    [|now intros [= _ <-]].
  unfold sync.conn_upsert_acordaos.
  destruct (db.upsert_acordaos (conn s) records) as [[n|e0] c]; simpl.
  - discriminate.
  - now intros [= _ <-].
Qed.

(** C8 fails on the code: the archive holds [a.json], [b.json] (a record
    without identifier) and [c.json].  The file [a.json] is consumed and
    deleted; the consumption of [b.json] raises, and [b.json] and [c.json]
    are still in the working directory when the run returns. *)
Theorem extracted_files_outlive_a_failure :
  exists total s',
    sync.sync_all scenario.rt scenario.catalog_zip_malformed
      (Some scenario.corte_especial) false scenario.start = (Ok total, s')
    /\ files s' !! "data/espelhos-de-acordaos-corte-especial/a.json" = None
    /\ files s' !! "data/espelhos-de-acordaos-corte-especial/b.json"
       = Some (FJson [scenario.raw_no_id])
    /\ files s' !! "data/espelhos-de-acordaos-corte-especial/c.json"
       = Some (FJson [scenario.raw2])
    /\ In (PrintError "2020.zip" (KeyError "id")) (console s').
Proof.
  eexists. eexists. split; [vm_compute; reflexivity|].
  split; [reflexivity|]. split; [vm_compute; reflexivity|].
  split; [vm_compute; reflexivity|]. simpl. auto.
Qed.

(** On the success path every extracted file is deleted. *)
Lemma extracted_files_deleted_on_success :
  exists total s',
    sync.sync_all scenario.rt scenario.catalog_mixed None false scenario.start
    = (Ok total, s')
    /\ files s' = ∅.
Proof. eexists. eexists. split; vm_compute; reflexivity. Qed.

(** * Further properties of the code *)

(** ** The normalizer *)

Lemma from_json_id (rt : PyRuntime) (data : gmap string jval) (a : models.Acordao) :
  models.from_json rt data = Ok a ->
  models.id a = py_str rt (models.get data "id" JNull).
Proof.
  unfold models.from_json, models.get. destruct (data !! "id"); [|discriminate].
  now intros [= <-].
Qed.

(** X1. Normalizing a payload succeeds exactly when every raw record has
    the key [id]; it then yields one record per raw record, in the same
    order, whose identifier is [str] of the raw one. *)
Theorem from_json_all_succeeds_iff_ids (rt : PyRuntime)
    (raw : list (gmap string jval)) :
  ((forall r, In r raw -> r !! "id" <> None) <->
   exists records, models.from_json_all rt raw = Ok records)
  /\ (forall records,
        models.from_json_all rt raw = Ok records ->
        length records = length raw
        /\ map models.id records
           = map (fun r => py_str rt (models.get r "id" JNull)) raw).
Proof.
  split; [split|].
  - induction raw as [|r raw IH]; intros H; [now exists []|].
    simpl. destruct (models.from_json rt r) as [a|e] eqn:Hr.
    + destruct IH as [records Hrec]; [intros x Hx; apply H; now right|].
      rewrite Hrec. now exists (a :: records).
    + exfalso. apply (H r (or_introl eq_refl)).
      unfold models.from_json in Hr. now destruct (r !! "id").
  - intros [records Hrec] r Hin Hid.
    rewrite from_json_all_missing_id in Hrec; [discriminate|]. now exists r.
  - induction raw as [|r raw IH]; intros records; simpl.
    + now intros [= <-].
    + destruct (models.from_json rt r) as [a|e] eqn:Hr; [|discriminate].
      destruct (models.from_json_all rt raw) as [l|e]; [|discriminate].
      intros [= <-]. destruct (IH l eq_refl) as [Hlen Hids]. simpl.
      now rewrite Hlen, Hids, (from_json_id rt r a Hr).
Qed.

Lemma reference_text (rt : PyRuntime) (v : jval) :
  null_text_or_list v = true ->
  exists s,
    models.or_empty (models.serialize_list rt v) = JStr s
    /\ (truthy v = false -> s = "").
Proof.
  destruct v as [|n|t|l|m]; try discriminate; intros _.
  - now exists "".
  - unfold models.or_empty. simpl. destruct (String.eqb t "") eqn:E; simpl.
    + exists "". now split.
    + exists t. split; [reflexivity|discriminate].
  - destruct l as [|x l].
    + now exists "".
    + unfold models.or_empty. simpl.
      destruct (String.eqb (json_dumps rt (x :: l)) "") eqn:E; simpl.
      * exists "". split; [reflexivity|discriminate].
      * exists (json_dumps rt (x :: l)). split; [reflexivity|discriminate].
Qed.

(** X2. The two reference fields of a normalized record are never [None]
    and never a list: when the raw value is absent, null, a string or a
    list, the field is a string (the empty one for an absent, null or
    empty value), which SQLite binds as a text. *)
Theorem reference_fields_are_text (rt : PyRuntime) (data : gmap string jval)
    (a : models.Acordao) :
  models.from_json rt data = Ok a ->
  (null_text_or_list (models.get data "referenciasLegislativas" JNull) = true ->
   exists s,
     models.referencias_legislativas a = JStr s
     /\ sqlite.bind_param (models.referencias_legislativas a) = Ok (sqlite.SText s)
     /\ (truthy (models.get data "referenciasLegislativas" JNull) = false ->
         s = ""))
  /\ (null_text_or_list (models.get data "acordaosSimilares" JNull) = true ->
      exists s,
        models.acordaos_similares a = JStr s
        /\ sqlite.bind_param (models.acordaos_similares a) = Ok (sqlite.SText s)
        /\ (truthy (models.get data "acordaosSimilares" JNull) = false ->
            s = "")).
Proof.
  unfold models.from_json. destruct (data !! "id"); [|discriminate].
  intros [= <-]. simpl. split; intros Hv.
  - destruct (reference_text rt _ Hv) as (s & Hs & He).
    exists s. rewrite Hs. now split.
  - destruct (reference_text rt _ Hv) as (s & Hs & He).
    exists s. rewrite Hs. now split.
Qed.

(** A record whose references are a list of two items. *)
Lemma reference_fields_are_text_witness :
  exists a s,
    models.from_json scenario.rt
      {[ "id" := JStr "1";
         "referenciasLegislativas" := JList [JStr "CF"; JStr "CPC"] ]} = Ok a
    /\ models.referencias_legislativas a = JStr s
    /\ models.acordaos_similares a = JStr "".
Proof.
  assert (Ha : exists a,
            models.from_json scenario.rt
              {[ "id" := JStr "1";
                 "referenciasLegislativas" := JList [JStr "CF"; JStr "CPC"] ]}
            = Ok a)
    by (vm_compute; eexists; reflexivity).
  destruct Ha as [a Ha]. exists a.
  destruct (reference_fields_are_text scenario.rt _ a Ha) as [H1 H2].
  destruct (H1 eq_refl) as (s & Hs & _).
  destruct (H2 eq_refl) as (s' & Hs' & _ & He).
  exists s. split; [exact Ha|]. split; [exact Hs|].
  rewrite Hs'. f_equal. now apply He.
Defined.

(** ** The sync markers *)

Lemma same_marker_eq (d r d' r' : string) (m : string * string * string) :
  db.same_marker d r m = true -> db.same_marker d' r' m = true ->
  d = d' /\ r = r'.
Proof.
  unfold db.same_marker. intros H H'.
  apply andb_prop in H as [H1 H2]. apply andb_prop in H' as [H1' H2'].
  apply String.eqb_eq in H1, H2, H1', H2'. split; congruence.
Qed.

Lemma count_marker_mark (c : db.conn) (d r n d' r' : string) :
  count_marker d' r' (db.mark_synced c d r n)
  = if String.eqb d d' && String.eqb r r' then 1%nat else count_marker d' r' c.
Proof.
  unfold count_marker, db.mark_synced. simpl.
  rewrite List.filter_app, length_app, filter_twice. simpl.
  assert (Hnew : db.same_marker d' r' (d, r, n)
                 = String.eqb d d' && String.eqb r r') by reflexivity.
  rewrite Hnew. destruct (String.eqb d d' && String.eqb r r') eqn:E; simpl.
  - rewrite filter_none; [reflexivity|]. intros m _.
    apply andb_prop in E as [E1 E2]. apply String.eqb_eq in E1, E2. subst.
    now destruct (db.same_marker d' r' m).
  - rewrite Nat.add_0_r. f_equal. apply filter_ext_in'. intros m _.
    destruct (db.same_marker d r m) eqn:H1; [|reflexivity].
    destruct (db.same_marker d' r' m) eqn:H2; [|reflexivity].
    destruct (same_marker_eq _ _ _ _ _ H1 H2) as [-> ->].
    now rewrite !String.eqb_refl in E.
Qed.

(** X3. Marking a resource as synced makes [is_synced] true for its key
    and changes it for no other key; the key then has exactly one marker,
    which carries the new resource name, a key that had at most one marker
    still has at most one, and the records are untouched. *)
Theorem mark_synced_then_is_synced (c : db.conn) (d r n : string) :
  db.is_synced (db.mark_synced c d r n) d r = true
  /\ (forall d' r', (d', r') <> (d, r) ->
        db.is_synced (db.mark_synced c d r n) d' r' = db.is_synced c d' r')
  /\ count_marker d r (db.mark_synced c d r n) = 1%nat
  /\ (forall m, In m (db.sync_state (db.mark_synced c d r n)) ->
        db.same_marker d r m = true -> m = (d, r, n))
  /\ (forall d' r', (count_marker d' r' c <= 1)%nat ->
        (count_marker d' r' (db.mark_synced c d r n) <= 1)%nat)
  /\ db.acordaos (db.mark_synced c d r n) = db.acordaos c.
Proof.
  split; [|split; [|split; [|split; [|split]]]].
  - rewrite is_synced_mark, !String.eqb_refl. apply orb_true_r.
  - intros d' r' Hne. rewrite is_synced_mark.
    destruct (String.eqb d d' && String.eqb r r') eqn:E; [|apply orb_false_r].
    apply andb_prop in E as [E1 E2]. apply String.eqb_eq in E1, E2. now subst.
  - rewrite count_marker_mark, !String.eqb_refl. reflexivity.
  - intros m Hin Hm. unfold db.mark_synced in Hin. simpl in Hin.
    apply in_app_or in Hin as [Hin|[<-|[]]]; [|reflexivity].
    apply filter_In in Hin as [_ Hin]. now rewrite Hm in Hin.
  - intros d' r' H. rewrite count_marker_mark.
    now destruct (String.eqb d d' && String.eqb r r').
  - reflexivity.
Qed.

(** X4. Clearing the sync state deletes markers only: the records stay.
    With a dataset name it deletes the markers of that dataset and keeps
    those of every other dataset; without one, or with the empty name, it
    deletes them all. *)
Theorem clear_sync_state_scope (c : db.conn) (dataset : option string) :
  db.acordaos (db.clear_sync_state c dataset) = db.acordaos c
  /\ (forall d r,
        db.is_synced (db.clear_sync_state c dataset) d r
        = if truthy_arg dataset
          then db.is_synced c d r && negb (String.eqb d (default "" dataset))
          else false)
  /\ (forall m, In m (db.sync_state (db.clear_sync_state c dataset)) ->
        In m (db.sync_state c)).
Proof.
  unfold db.clear_sync_state. split; [|split].
  - now destruct (truthy_arg dataset).
  - intros d r. destruct (truthy_arg dataset); [|reflexivity].
    unfold db.is_synced. simpl.
    induction (db.sync_state c) as [|m l IH]; simpl; [reflexivity|].
    assert (Hm : forall x, String.eqb (fst (fst m)) x = false ->
                 db.same_marker x r m = false)
      by (intros x Hx; unfold db.same_marker; now rewrite Hx).
    destruct (String.eqb (fst (fst m)) (default "" dataset)) eqn:E;
      destruct (String.eqb d (default "" dataset)) eqn:Ed; simpl;
      rewrite IH; simpl; rewrite ?andb_false_r, ?andb_true_r; try reflexivity.
    + apply String.eqb_eq in E. apply String.eqb_neq in Ed.
      rewrite Hm; [reflexivity|]. apply String.eqb_neq. congruence.
    + apply String.eqb_eq in Ed. subst d. now rewrite (Hm _ E).
  - intros m. destruct (truthy_arg dataset); simpl; [|intros []].
    intros H. now apply filter_In in H.
Qed.

(** ** The store *)

Lemma filter_partition_length {A : Type} (p : A -> bool) (l : list A) :
  (length (List.filter p l) + length (List.filter (fun x => negb (p x)) l)
   = length l)%nat.
Proof.
  induction l as [|x l IH]; simpl; [reflexivity|].
  destruct (p x); simpl; lia.
Qed.

Lemma insert_or_replace_length (r : sqlite.row) (tbl : list sqlite.row) :
  has_text_id r ->
  (forall i, (count_id i tbl <= 1)%nat) ->
  (length tbl <= length (sqlite.insert_or_replace r tbl) <= S (length tbl))%nat.
Proof.
  intros [i Hi] Huniq. unfold sqlite.insert_or_replace.
  rewrite length_app. simpl.
  pose proof (filter_partition_length (sqlite.pk_clash r) tbl) as Hp.
  assert (Hc : List.filter (sqlite.pk_clash r) tbl
               = List.filter (sqlite.row_has_id i) tbl)
    by (apply filter_ext_in'; intros x _; unfold sqlite.pk_clash; now rewrite Hi).
  rewrite Hc in Hp. specialize (Huniq i). unfold count_id in Huniq. lia.
Qed.

Lemma insert_all_length (rows tbl : list sqlite.row) :
  Forall has_text_id rows ->
  (forall i, (count_id i tbl <= 1)%nat) ->
  (length tbl <= length (insert_all rows tbl) <= length tbl + length rows)%nat.
Proof.
  intros Hrows. revert tbl. induction Hrows as [|r rows Hr Hrows IH];
    intros tbl Huniq; simpl; [lia|].
  pose proof (insert_or_replace_length r tbl Hr Huniq) as H1.
  assert (Huniq' : forall i, (count_id i (sqlite.insert_or_replace r tbl) <= 1)%nat).
  { intros i. rewrite count_id_insert. destruct (sqlite.row_has_id i r); auto. }
  specialize (IH _ Huniq'). lia.
Qed.

(** X5. A successful upsert on a store with one row per identifier never
    loses a row and adds at most one row per record of the batch; the
    markers are untouched; an empty batch returns 0 and leaves the
    connection as it is. *)
Theorem upsert_row_count (c c1 : db.conn) (records : list models.Acordao)
    (n : nat) :
  db.upsert_acordaos c records = (Ok n, c1) ->
  (forall i, (count_id i (db.acordaos c) <= 1)%nat) ->
  (length (db.acordaos c) <= length (db.acordaos c1)
   <= length (db.acordaos c) + n)%nat
  /\ db.sync_state c1 = db.sync_state c
  /\ (records = [] -> n = O /\ c1 = c).
Proof.
  unfold db.upsert_acordaos. destruct records as [|a records].
  - intros [= <- <-] _. split; [lia|]. now split.
  - destruct (sqlite.executemany_insert _ _) as [[u|e] t] eqn:Hex; [|discriminate].
    intros [= <- <-] Huniq. simpl db.acordaos.
    apply executemany_insert_unit, executemany_insert_ok in Hex as (rows & HF & ->).
    assert (Hlen : length rows = length (map models.astuple (a :: records)))
      by (symmetry; eapply Forall2_length; exact HF).
    assert (Htext : Forall has_text_id rows).
    { clear -HF. remember (a :: records) as batch eqn:Hb. clear Hb.
      revert rows HF. induction batch as [|x batch IH]; intros rows HF.
      - inversion HF. constructor.
      - simpl in HF. inversion HF as [|p row ps rows' Hp HF' E1 E2]; subst.
        constructor; [|now apply IH].
        exists (models.id x). now apply bind_astuple. }
    pose proof (insert_all_length rows (db.acordaos c) Htext Huniq) as Hb.
    rewrite Hlen in Hb. split; [exact Hb|]. split; [reflexivity|discriminate].
Qed.

(** Two records with one identifier: one row more, two records written. *)
Lemma upsert_row_count_witness :
  let batch := scenario.normalized [scenario.raw1; scenario.raw1'] in
  let c1 := snd (db.upsert_acordaos scenario.conn3 batch) in
  (length (db.acordaos scenario.conn3) <= length (db.acordaos c1)
   <= length (db.acordaos scenario.conn3) + 2)%nat.
Proof.
  cbv zeta.
  apply (upsert_row_count scenario.conn3 _
           (scenario.normalized [scenario.raw1; scenario.raw1']) 2%nat).
  - vm_compute. reflexivity.
  - intros i. unfold count_id.
    let t := eval vm_compute in (db.acordaos scenario.conn3) in
    change (db.acordaos scenario.conn3) with t.
    unfold sqlite.row_has_id. simpl.
    destruct (String.eqb i "1") eqn:E1; destruct (String.eqb i "2") eqn:E2;
      destruct (String.eqb i "3") eqn:E3; simpl; try lia;
      try (apply String.eqb_eq in E1; subst i; discriminate);
      try (apply String.eqb_eq in E2; subst i; discriminate).
Defined.

Lemma executemany_insert_app (a b : list (list jval)) (tbl : list sqlite.row) :
  sqlite.executemany_insert tbl (a ++ b)
  = match sqlite.executemany_insert tbl a with
    | (Ok _, t) => sqlite.executemany_insert t b
    | (Raise e, t) => (Raise e, t)
    end.
Proof.
  revert tbl. induction a as [|p a IH]; intros tbl; simpl; [reflexivity|].
  destruct (sqlite.bind_params p); [apply IH|reflexivity].
Qed.

(** X6. An upsert is not all-or-nothing on the connection: when a record
    of the batch cannot be bound, the call raises the binding error, the
    records before it are written exactly as by an upsert of their own, and
    the records after it are not written. *)
Theorem upsert_stops_at_unbindable_record (c : db.conn)
    (pre post : list models.Acordao) (bad : models.Acordao) (e : exn) :
  forallb bindable pre = true ->
  sqlite.bind_params (models.astuple bad) = Raise e ->
  fst (db.upsert_acordaos c (pre ++ bad :: post)) = Raise e
  /\ db.acordaos (snd (db.upsert_acordaos c (pre ++ bad :: post)))
     = db.acordaos (snd (db.upsert_acordaos c pre))
  /\ fst (db.upsert_acordaos c pre) = Ok (length pre).
Proof.
  intros Hpre Hbad.
  destruct (bindable_rows pre Hpre) as (rows & HF & _).
  assert (Hrun : forall tbl,
            sqlite.executemany_insert tbl
              (map models.astuple (pre ++ bad :: post))
            = (Raise e, insert_all rows tbl)).
  { intros tbl. rewrite map_app, executemany_insert_app.
    rewrite (executemany_insert_bound _ rows _ HF).
    cbn [map sqlite.executemany_insert]. now rewrite Hbad. }
  assert (Hfull : db.upsert_acordaos c (pre ++ bad :: post)
                  = (Raise e, db.set_acordaos (insert_all rows (db.acordaos c)) c)).
  { unfold db.upsert_acordaos.
    destruct (pre ++ bad :: post) as [|x l] eqn:El; [now destruct pre|].
    cbv zeta. rewrite Hrun. reflexivity. }
  rewrite Hfull. simpl. split; [reflexivity|].
  unfold db.upsert_acordaos. destruct pre as [|x pre].
  - inversion HF. subst. now split.
  - rewrite (executemany_insert_bound _ rows _ HF). simpl.
    split; [reflexivity|]. now rewrite length_map.
Qed.

(** Record 7, then a record whose notes are a list, then record 9. *)
Lemma upsert_stops_at_unbindable_record_witness :
  exists a7 a8 a9,
    scenario.normalized [scenario.raw7; scenario.raw_unbindable; scenario.raw9]
    = [a7; a8; a9]
    /\ fst (db.upsert_acordaos scenario.empty_conn [a7; a8; a9])
       = Raise ProgrammingError
    /\ map sqlite.row_id
         (db.acordaos (snd (db.upsert_acordaos scenario.empty_conn [a7; a8; a9])))
       = [sqlite.SText "7"].
Proof.
  eexists. eexists. eexists. split; [vm_compute; reflexivity|].
  match goal with
  | |- fst (db.upsert_acordaos _ [?a7; ?a8; ?a9]) = _ /\ _ =>
      destruct (upsert_stops_at_unbindable_record scenario.empty_conn
                  [a7] [a9] a8 ProgrammingError) as (H1 & H2 & _);
        [vm_compute; reflexivity|vm_compute; reflexivity|]
  end.
  split; [exact H1|].
  etransitivity; [exact (f_equal (map sqlite.row_id) H2)|].
  vm_compute. reflexivity.
Defined.

Lemma upsert_last_write (c c1 : db.conn) (pre post : list models.Acordao)
    (a : models.Acordao) (n : nat) :
  db.upsert_acordaos c (pre ++ a :: post) = (Ok n, c1) ->
  (forall a', In a' post -> models.id a' <> models.id a) ->
  exists tuple,
    sqlite.bind_params (models.astuple a) = Ok tuple
    /\ db.get_by_id c1 (models.id a) = Some tuple.
Proof.
  unfold db.upsert_acordaos.
  destruct (pre ++ a :: post) as [|x l] eqn:El; [now destruct pre|].
  destruct (sqlite.executemany_insert _ _) as [[u|e] t] eqn:Hex; [|discriminate].
  intros [= <- <-] Hpost. rewrite <- El in Hex.
  apply executemany_insert_unit, executemany_insert_ok in Hex as (rows & HF & ->).
  rewrite map_app in HF. simpl in HF.
  apply Forall2_app_inv_l in HF as (rpre & rrest & HFpre & HFrest & ->).
  inversion HFrest as [|p row ps rpost Hp HFpost E1 E2]; subst p ps rrest.
  exists row. split; [assumption|]. unfold db.get_by_id. simpl db.acordaos.
  apply find_insert_all_last.
  - unfold sqlite.row_has_id. rewrite (bind_astuple _ _ Hp). apply String.eqb_refl.
  - apply not_true_is_false. intros Hex. apply existsb_exists in Hex as (y & Hy & Hid).
    clear -HFpost Hy Hid Hpost.
    revert rpost HFpost Hy. induction post as [|b post IH]; intros rpost HF Hy.
    + inversion HF; subst. destruct Hy.
    + simpl in HF. inversion HF as [|p row' ps rows' Hp HF' E1 E2]; subst.
      destruct Hy as [->|Hy].
      * apply bind_astuple in Hp. unfold sqlite.row_has_id in Hid.
        rewrite Hp in Hid. apply String.eqb_eq in Hid.
        apply (Hpost b); [now left|congruence].
      * apply (IH (fun a' H' => Hpost a' (or_intror H')) rows' HF' Hy).
Qed.

Lemma bound_tuple_columns (a : models.Acordao) (tuple : sqlite.row) :
  sqlite.bind_params (models.astuple a) = Ok tuple ->
  length tuple = length models.field_names
  /\ Forall2 (fun name v => sqlite.bind_param v = Ok (db.column name tuple))
       models.field_names (models.astuple a).
Proof.
  unfold models.astuple. cbn [sqlite.bind_params].
  change (sqlite.bind_param (JStr (models.id a)))
    with (@Ok sqlite.sqlval (sqlite.SText (models.id a))).
  intros H.
  repeat match type of H with
         | context [match sqlite.bind_param ?v with _ => _ end] =>
             let E := fresh "E" in
             destruct (sqlite.bind_param v) eqn:E; [|discriminate H]
         end.
  injection H as <-. split; [reflexivity|].
  repeat (constructor; [first [reflexivity|assumption]|]). constructor.
Qed.

(** X7. Round trip through the store: after a successful upsert, looking
    up the identifier of a record that no later record of the batch
    overwrites returns a row that has one value per schema column and
    holds, in the column named after each field of the record, that field
    as SQLite binds it ([None] as NULL, a string as itself). *)
Theorem upsert_then_get_by_id_columns (c c1 : db.conn)
    (pre post : list models.Acordao) (a : models.Acordao) (n : nat) :
  db.upsert_acordaos c (pre ++ a :: post) = (Ok n, c1) ->
  (forall a', In a' post -> models.id a' <> models.id a) ->
  exists tuple,
    db.get_by_id c1 (models.id a) = Some tuple
    /\ length tuple = length models.field_names
    /\ db.column "id" tuple = sqlite.SText (models.id a)
    /\ Forall2 (fun name v => sqlite.bind_param v = Ok (db.column name tuple))
         models.field_names (models.astuple a).
Proof.
  intros Hrun Hpost.
  destruct (upsert_last_write c c1 pre post a n Hrun Hpost) as (tuple & Hb & Hget).
  exists tuple. split; [exact Hget|].
  destruct (bound_tuple_columns a tuple Hb) as [Hlen Hcols].
  split; [exact Hlen|]. split; [|exact Hcols].
  apply bind_astuple in Hb. unfold db.column. simpl. unfold sqlite.row_id in Hb.
  destruct tuple; [discriminate|exact Hb].
Qed.

(** Record 1 upserted and read back: its judge and its date. *)
Lemma upsert_then_get_by_id_columns_witness :
  exists tuple,
    db.get_by_id scenario.conn3 "2" = Some tuple
    /\ db.column "ministro_relator" tuple = sqlite.SText "COSTA"
    /\ db.column "numero_documento" tuple = sqlite.SNull.
Proof.
  assert (Hn : exists a1 a2 a3,
            scenario.normalized [scenario.raw1; scenario.raw2; scenario.raw3]
            = [a1] ++ a2 :: [a3]
            /\ models.id a2 = "2" /\ models.id a3 <> models.id a2)
    by (vm_compute; do 3 eexists; split; [reflexivity|split; [reflexivity|discriminate]]).
  destruct Hn as (a1 & a2 & a3 & Hn & Hid & Hne).
  destruct (upsert_then_get_by_id_columns scenario.empty_conn scenario.conn3
              [a1] [a3] a2 3%nat) as (tuple & Hget & _ & _ & _).
  - rewrite <- Hn. vm_compute. reflexivity.
  - intros a' [<-|[]]. exact Hne.
  - exists tuple. rewrite Hid in Hget. split; [exact Hget|].
    vm_compute in Hget. injection Hget as <-. split; reflexivity.
Defined.

(** ** Breakdowns of a search *)

Section Breakdowns.
Import sqlite.

Lemma sqlval_eqb_eq (a b : sqlval) : sqlval_eqb a b = true <-> a = b.
Proof.
  destruct a as [|x], b as [|y]; simpl; try (split; [discriminate|congruence]).
  - tauto.
  - rewrite String.eqb_eq. split; congruence.
Qed.

Lemma sqlval_eqb_refl (a : sqlval) : sqlval_eqb a a = true.
Proof. now apply sqlval_eqb_eq. Qed.

Lemma sqlval_eqb_sym (a b : sqlval) : sqlval_eqb a b = sqlval_eqb b a.
Proof.
  destruct (sqlval_eqb b a) eqn:E.
  - apply sqlval_eqb_eq in E as ->. apply sqlval_eqb_refl.
  - apply not_true_is_false. intros H. apply sqlval_eqb_eq in H as ->.
    rewrite sqlval_eqb_refl in E. discriminate.
Qed.

Lemma count_of_bump (k k' : sqlval) (groups : list (sqlval * nat)) :
  count_of k' (db.bump k groups)
  = if sqlval_eqb k' k then S (count_of k' groups) else count_of k' groups.
Proof.
  unfold count_of. induction groups as [|[k0 n] groups IH]; simpl.
  - destruct (sqlval_eqb k' k); reflexivity.
  - destruct (sqlval_eqb k k0) eqn:E; simpl.
    + apply sqlval_eqb_eq in E as <-.
      destruct (sqlval_eqb k' k); reflexivity.
    + destruct (sqlval_eqb k' k0) eqn:E'; simpl.
      * apply sqlval_eqb_eq in E' as ->.
        rewrite sqlval_eqb_sym, E. reflexivity.
      * exact IH.
Qed.

Lemma bump_keys (k : sqlval) (groups : list (sqlval * nat)) :
  List.NoDup (map fst groups) ->
  List.NoDup (map fst (db.bump k groups))
  /\ (forall k', In k' (map fst (db.bump k groups))
                 <-> k' = k \/ In k' (map fst groups)).
Proof.
  induction groups as [|[k0 n] groups IH]; simpl; intros Hnd.
  - split; [repeat constructor; intros []|]. intros k'. split; intros [H|H];
      solve [auto | destruct H].
  - inversion Hnd as [|x l Hk0 Hnd' E]; subst.
    destruct (IH Hnd') as [IH1 IH2].
    destruct (sqlval_eqb k k0) eqn:E; simpl.
    + apply sqlval_eqb_eq in E as <-. split; [exact Hnd|]. intros k'.
      simpl. intuition congruence.
    + split.
      * constructor; [|exact IH1]. rewrite IH2. intros [->|H]; [|tauto].
        rewrite sqlval_eqb_refl in E. discriminate.
      * intros k'. simpl. rewrite IH2. intuition congruence.
Qed.

Lemma bump_positive (k : sqlval) (groups : list (sqlval * nat)) :
  List.Forall (fun g => 1 <= snd g) groups ->
  List.Forall (fun g => 1 <= snd g) (db.bump k groups).
Proof.
  induction 1 as [|[k0 n] groups Hn Hg IH]; simpl.
  - repeat constructor.
  - destruct (sqlval_eqb k k0); constructor; simpl in *; try lia; assumption.
Qed.

Lemma sum_counts_bump (k : sqlval) (groups : list (sqlval * nat)) :
  sum_counts (db.bump k groups) = S (sum_counts groups).
Proof.
  unfold sum_counts. induction groups as [|[k0 n] groups IH]; simpl; [reflexivity|].
  destruct (sqlval_eqb k k0); simpl; [reflexivity|]. rewrite IH. lia.
Qed.

(** The groups the scan accumulates, started from [acc]. *)
Lemma fold_bump (key : row -> sqlval) (rows : list row)
    (acc : list (sqlval * nat)) :
  List.NoDup (map fst acc) ->
  List.Forall (fun g => 1 <= snd g) acc ->
  let groups := fold_left (fun groups r => db.bump (key r) groups) rows acc in
  List.NoDup (map fst groups)
  /\ List.Forall (fun g => 1 <= snd g) groups
  /\ sum_counts groups = sum_counts acc + length rows
  /\ forall k, count_of k groups = count_of k acc + rows_in_group key k rows.
Proof.
  revert acc. induction rows as [|r rows IH]; intros acc Hnd Hpos; simpl.
  - repeat split; try assumption; try lia. intros k. unfold rows_in_group. simpl. lia.
  - destruct (IH (db.bump (key r) acc)) as (H1 & H2 & H3 & H4).
    + now apply bump_keys.
    + now apply bump_positive.
    + repeat split; try assumption.
      * rewrite H3, sum_counts_bump. lia.
      * intros k. rewrite H4, count_of_bump. unfold rows_in_group. simpl.
        rewrite (sqlval_eqb_sym (key r) k).
        destruct (sqlval_eqb k (key r)); simpl; lia.
Qed.

Lemma count_of_In (k : sqlval) (n : nat) (groups : list (sqlval * nat)) :
  List.NoDup (map fst groups) ->
  In (k, n) groups -> count_of k groups = n.
Proof.
  unfold count_of. induction groups as [|[k0 n0] groups IH]; simpl; [tauto|].
  intros Hnd [[= -> ->]|Hin].
  - now rewrite sqlval_eqb_refl.
  - inversion Hnd as [|x l Hk0 Hnd' E]; subst.
    destruct (sqlval_eqb k k0) eqn:E.
    + apply sqlval_eqb_eq in E as ->. exfalso. apply Hk0.
      apply (in_map fst) in Hin. exact Hin.
    + now apply IH.
Qed.

Lemma count_of_positive (k : sqlval) (groups : list (sqlval * nat)) :
  1 <= count_of k groups -> In (k, count_of k groups) groups.
Proof.
  unfold count_of. induction groups as [|[k0 n0] groups IH]; simpl; [lia|].
  destruct (sqlval_eqb k k0) eqn:E; simpl.
  - apply sqlval_eqb_eq in E as ->. now left.
  - intros H. right. now apply IH.
Qed.

Lemma sum_counts_perm (g g' : list (sqlval * nat)) :
  Permutation g g' -> sum_counts g = sum_counts g'.
Proof.
  unfold sum_counts. induction 1 as [|x l l' _ IH|x y l|l l' l'' _ IH1 _ IH2];
    simpl; lia.
Qed.

Lemma rows_in_group_perm (key : row -> sqlval) (k : sqlval) (l l' : list row) :
  Permutation l l' -> rows_in_group key k l = rows_in_group key k l'.
Proof.
  unfold rows_in_group.
  induction 1 as [|x l l' _ IH|x y l|l l' l'' _ IH1 _ IH2]; simpl.
  - reflexivity.
  - destruct (sqlval_eqb (key x) k); simpl; lia.
  - destruct (sqlval_eqb (key x) k), (sqlval_eqb (key y) k); reflexivity.
  - lia.
Qed.

(** [GROUP BY key ORDER BY cnt DESC]: one group per key that occurs, with
    the number of its rows. *)
Lemma by_count_desc_groups (key : row -> sqlval) (rows : list row) :
  let groups := db.by_count_desc (db.group_count key rows) in
  (forall k n, In (k, n) groups <-> 1 <= n /\ n = rows_in_group key k rows)
  /\ sum_counts groups = length rows
  /\ StronglySorted (fun x y => snd y <= snd x) groups.
Proof.
  cbv zeta. unfold db.by_count_desc, db.group_count.
  set (raw := fold_left (fun groups r => db.bump (key r) groups) rows []).
  destruct (fold_bump key rows []) as (Hnd & Hpos & Hsum & Hcnt);
    [constructor|constructor|]. fold raw in Hnd, Hpos, Hsum, Hcnt.
  set (by_key := order_by (fun x y => sqlval_leb (fst x) (fst y)) raw).
  assert (Hperm : Permutation
                    (order_by (fun x y : sqlval * nat => (snd y <=? snd x)%nat) by_key)
                    raw).
  { rewrite order_by_perm. apply order_by_perm. }
  split; [|split].
  - intros k n. split.
    + intros Hin. apply (Permutation_in _ Hperm) in Hin.
      rewrite List.Forall_forall in Hpos. specialize (Hpos _ Hin). simpl in Hpos.
      split; [exact Hpos|].
      rewrite <- (count_of_In k n raw Hnd Hin). rewrite Hcnt. reflexivity.
    + intros [Hn ->]. apply (Permutation_in _ (Permutation_sym Hperm)).
      specialize (Hcnt k). unfold count_of at 2 in Hcnt. simpl in Hcnt.
      rewrite <- Hcnt. apply count_of_positive. rewrite Hcnt. exact Hn.
  - rewrite (sum_counts_perm _ _ Hperm), Hsum. reflexivity.
  - assert (Hs := order_by_sorted (fun x y : sqlval * nat => (snd y <=? snd x)%nat)).
    specialize (Hs ltac:(intros x y; rewrite !Nat.leb_le; lia)
                   ltac:(intros x y z; rewrite !Nat.leb_le; lia) by_key).
    revert Hs. apply StronglySorted_impl. intros x y. apply Nat.leb_le.
Qed.

Lemma sum_counts_limit (n : Z) (groups : list (sqlval * nat)) :
  sum_counts (sql_limit n groups) <= sum_counts groups.
Proof.
  destruct (sql_limit_split n groups) as (rest & Heq & _).
  rewrite Heq at 2. unfold sum_counts. rewrite map_app, list_sum_app. lia.
Qed.

End Breakdowns.

(** X8. The breakdowns [search_stats] returns describe the rows the same
    search returns without a limit: [total] is their number; [by_orgao] has
    exactly one entry per chamber that occurs among them, with the number
    of their rows of that chamber, its counts add up to [total] and come
    in non-increasing order; [by_classe] and [by_relator] have at most ten
    entries, each a class (judge) with the number of rows that have it, in
    non-increasing order of count, so their counts add up to at most
    [total]. *)
Theorem search_stats_describes_the_search (fts : db.Fts5) (c : db.conn)
    (query : string) (ministro classe desde : option string) (order : string)
    (st : db.stats) :
  db.search_stats fts c query ministro classe desde = Ok st ->
  exists hits,
    db.search fts c query ministro classe desde (-1) order = Ok hits
    /\ db.total st = length hits
    /\ (forall k n,
          In (k, n) (db.by_orgao st)
          <-> 1 <= n
              /\ n = rows_in_group (db.column "orgao_julgador") k (map fst hits))
    /\ sum_counts (db.by_orgao st) = db.total st
    /\ StronglySorted (fun x y => snd y <= snd x) (db.by_orgao st)
    /\ (length (db.by_classe st) <= 10
        /\ (forall k n,
              In (k, n) (db.by_classe st) ->
              1 <= n
              /\ n = rows_in_group (db.column "sigla_classe") k (map fst hits))
        /\ sum_counts (db.by_classe st) <= db.total st
        /\ StronglySorted (fun x y => snd y <= snd x) (db.by_classe st))
    /\ (length (db.by_relator st) <= 10
        /\ (forall k n,
              In (k, n) (db.by_relator st) ->
              1 <= n
              /\ n = rows_in_group (db.column "ministro_relator") k (map fst hits))
        /\ sum_counts (db.by_relator st) <= db.total st
        /\ StronglySorted (fun x y => snd y <= snd x) (db.by_relator st)).
Proof.
  unfold db.search_stats, db.search.
  destruct (db.matching fts c query (db._build_filters ministro classe desde))
    as [base|e]; [|discriminate].
  intros [= <-].
  set (hits := sqlite.order_by
                 (db.order_leb
                    (if String.eqb order "data" then db.DataDecisaoDesc else db.Rank))
                 (map (fun r => (r, db.bm25 fts query (db.acordaos c) r)) base)).
  exists hits. split; [reflexivity|].
  assert (Hperm : Permutation (map fst hits) base).
  { unfold hits. rewrite order_by_perm, map_map. simpl. now rewrite map_id. }
  assert (Hin : forall key k,
             rows_in_group key k (map fst hits) = rows_in_group key k base)
    by (intros; now apply rows_in_group_perm).
  assert (Hlen : length hits = length base)
    by (rewrite <- (Permutation_length Hperm); now rewrite length_map).
  cbn [db.total db.by_orgao db.by_classe db.by_relator].
  destruct (by_count_desc_groups (db.column "orgao_julgador") base) as (O1 & O2 & O3).
  destruct (by_count_desc_groups (db.column "sigla_classe") base) as (C1 & C2 & C3).
  destruct (by_count_desc_groups (db.column "ministro_relator") base) as (R1 & R2 & R3).
  cbv zeta in *. rewrite Hlen.
  split; [reflexivity|]. split; [intros k n; rewrite Hin; apply O1|].
  split; [exact O2|]. split; [exact O3|]. split.
  - split; [pose proof (sql_limit_length 10 (db.by_count_desc
              (db.group_count (db.column "sigla_classe") base)) ltac:(lia)); lia|].
    split; [intros k n H; apply sql_limit_In in H; rewrite Hin; now apply C1|].
    split; [rewrite <- C2; apply sum_counts_limit|now apply sql_limit_sorted].
  - split; [pose proof (sql_limit_length 10 (db.by_count_desc
              (db.group_count (db.column "ministro_relator") base)) ltac:(lia)); lia|].
    split; [intros k n H; apply sql_limit_In in H; rewrite Hin; now apply R1|].
    split; [rewrite <- R2; apply sum_counts_limit|now apply sql_limit_sorted].
Qed.

(** The three decisions of the example store under the query [dano]. *)
Lemma search_stats_describes_the_search_witness :
  exists st hits,
    db.search_stats fts5_barewords.engine scenario.conn3 "dano" None None None
    = Ok st
    /\ db.search fts5_barewords.engine scenario.conn3 "dano" None None None (-1)
         "data" = Ok hits
    /\ db.total st = length hits
    /\ sum_counts (db.by_orgao st) = db.total st.
Proof.
  assert (H : exists st,
             db.search_stats fts5_barewords.engine scenario.conn3 "dano"
               None None None = Ok st)
    by (vm_compute; eexists; reflexivity).
  destruct H as [st H]. exists st.
  destruct (search_stats_describes_the_search _ _ _ _ _ _ "data" st H)
    as (hits & Hs & Ht & _ & Hsum & _).
  exists hits. repeat split; assumption.
Defined.

(** ** The client *)

Lemma retry_loop_trace {A : Type} (url : string) (send : nat -> option A)
    (s : state) :
  exists s',
    client.retry_loop url send (seq 0 client.MAX_RETRIES) s
    = (match first_reply send with
       | Some a => Ok a
       | None => Raise (HTTPError url)
       end, s')
    /\ retried url send s s'.
Proof.
  unfold first_reply, retried, attempts_made, backoff. simpl.
  unfold bind, request, sleep, ret, raise. simpl.
  destruct (send 0%nat) as [a|]; simpl.
  { eexists. split; [reflexivity|]. simpl. repeat split. lia. }
  destruct (send 1%nat) as [a|]; simpl.
  { eexists. split; [reflexivity|]. simpl. rewrite <- app_assoc. repeat split. }
  destruct (send 2%nat) as [a|]; simpl.
  { eexists. split; [reflexivity|]. simpl. rewrite <- !app_assoc.
    repeat split. lia. }
  eexists. split; [reflexivity|]. simpl. rewrite <- !app_assoc.
  repeat split. lia.
Qed.

(** X9. The retry policy of the two JSON requests.  [download_json] and
    [get_dataset_resources] return the first answer among at most three
    attempts and raise the HTTP error when all three fail; they request
    the URL once per attempt and stop at the first answer; they sleep 5
    seconds after a first failure and 10 after a second one, not after
    the third; and they touch neither the database, nor the files, nor
    the console. *)
Theorem requests_retry_with_backoff (w : World) (s : state) :
  (forall url,
     exists s',
       client.download_json w url s
       = (match first_reply (get_json w url) with
          | Some raw => Ok raw
          | None => Raise (HTTPError url)
          end, s')
       /\ retried url (get_json w url) s s')
  /\ (forall dataset,
        let url := (config.CKAN_BASE_URL ++ "/package_show?id=" ++ dataset)%string in
        exists s',
          client.get_dataset_resources w dataset s
          = (match first_reply (package_show w dataset) with
             | Some resources => Ok resources
             | None => Raise (HTTPError url)
             end, s')
          /\ retried url (package_show w dataset) s s')
  /\ (forall (A : Type) (send : nat -> option A),
        1 <= attempts_made send <= client.MAX_RETRIES
        /\ (first_reply send = None -> attempts_made send = client.MAX_RETRIES)
        /\ (forall a, first_reply send = Some a ->
              send (attempts_made send - 1) = Some a
              /\ forall k, k < attempts_made send - 1 -> send k = None)
        /\ backoff 1 = 0 /\ backoff 2 = 5 /\ backoff 3 = 15).
Proof.
  split; [|split].
  - intros url. apply retry_loop_trace.
  - intros dataset. cbv zeta. apply retry_loop_trace.
  - intros A send. unfold attempts_made, first_reply, client.MAX_RETRIES.
    split; [destruct (send 0%nat); [lia|destruct (send 1%nat); lia]|].
    split; [destruct (send 0%nat); [discriminate|];
            destruct (send 1%nat); [discriminate|reflexivity]|].
    split; [|repeat split].
    intros a. destruct (send 0%nat) as [a0|] eqn:E0.
    { intros [= <-]. split; [exact E0|]. simpl. intros k Hk. lia. }
    destruct (send 1%nat) as [a1|] eqn:E1.
    { intros [= <-]. split; [exact E1|]. simpl. intros k Hk.
      assert (k = 0%nat) as -> by lia. exact E0. }
    intros H. split; [exact H|]. simpl. intros k Hk.
    assert (k = 0%nat \/ k = 1%nat) as [->| ->] by lia; assumption.
Qed.



(** ** Runs of the synchronisation *)

Section Resync.
Context (rt : PyRuntime) (w : World).








End Resync.






(** ** The command [busca] *)




(** ** The count of upserted records *)

Section Counting.
Context (rt : PyRuntime) (w : World).







End Counting.


